(** * Verification model of the experiment-tracking utilities

  Shallow embedding of [src/utils/configs.py], [src/utils/configs_provider.py]
  and [src/utils/experiment_logger.py].

  Python objects are modelled by value; calls into the tracking SDK, the
  logger sink and the filesystem are modelled by explicit state passing over
  a [World] that records every call in order.  Exceptions are values of an
  error type and the state is kept when one is raised, as in Python. *)

From Stdlib Require Import ZArith String Ascii List Lia.
From stdpp Require Import base option list strings gmap.

Local Open Scope string_scope.
Local Open Scope Z_scope.

Set Warnings "-register-all".

(** ** Python values *)

Module Py.

(** The classes [isinstance] is asked about, and the classes of the values
    that reach [log_dict]. *)
Inductive Class : Type :=
| c_object | c_int | c_bool | c_float | c_str | c_NoneType | c_list | c_dict
| c_other (name : string).

(** A float is carried by its [repr]; no arithmetic is done on it. *)
Inductive Value : Type :=
| VNone
| VBool (b : bool)
| VInt (z : Z)
| VFloat (repr : string)
| VStr (s : string)
| VList (items : list Value)
| VDict (items : list (string * Value))
| VObject (cls : string).

Definition type (v : Value) : Class :=
  match v with
  | VNone => c_NoneType
  | VBool _ => c_bool
  | VInt _ => c_int
  | VFloat _ => c_float
  | VStr _ => c_str
  | VList _ => c_list
  | VDict _ => c_dict
  | VObject c => c_other c
  end.

(** The direct base class: [bool.__bases__ == (int,)], every other class
    here derives from [object] directly. *)
Definition base (c : Class) : option Class :=
  match c with
  | c_object => None
  | c_bool => Some c_int
  | _ => Some c_object
  end.

Definition class_eqb (c d : Class) : bool :=
  match c, d with
  | c_object, c_object | c_int, c_int | c_bool, c_bool | c_float, c_float
  | c_str, c_str | c_NoneType, c_NoneType | c_list, c_list | c_dict, c_dict => true
  | c_other a, c_other b => String.eqb a b
  | _, _ => false
  end.

(** [issubclass c d]: walk the chain of bases, which has length at most 3. *)
Fixpoint issubclass_fuel (fuel : nat) (c d : Class) : bool :=
  class_eqb c d ||
  match fuel with
  | O => false
  | S fuel' =>
      match base c with
      | Some b => issubclass_fuel fuel' b d
      | None => false
      end
  end.

Definition issubclass (c d : Class) : bool := issubclass_fuel 3 c d.

(** [isinstance(v, (c1, ..., cn))]. *)
Definition isinstance (v : Value) (classes : list Class) : bool :=
  existsb (issubclass (type v)) classes.

End Py.

Import Py.

(** A Python [dict] with string keys, in insertion order. *)
Definition Dict : Type := list (string * Value).

(** ** Strings and paths *)

Module Str.

Definition lower_ascii (c : ascii) : ascii :=
  let n := nat_of_ascii c in
  if ((65 <=? n)%nat && (n <=? 90)%nat)%bool then ascii_of_nat (n + 32) else c.

(** [str.lower], on the ASCII letters. *)
Fixpoint lower (s : string) : string :=
  match s with
  | EmptyString => EmptyString
  | String c s' => String (lower_ascii c) (lower s')
  end.

Definition len (s : string) : Z := Z.of_nat (String.length s).

(** [s.rfind(c)]: the highest index of [c] in [s], [-1] when absent. *)
Fixpoint rfind (c : ascii) (s : string) : Z :=
  match s with
  | EmptyString => -1
  | String a s' =>
      let r := rfind c s' in
      if 0 <=? r then r + 1
      else if Ascii.eqb a c then 0 else -1
  end.

(** [s[:i]] and [s[i:]] for [0 <= i]. *)
Definition take (i : Z) (s : string) : string := String.substring 0 (Z.to_nat i) s.
Definition drop (i : Z) (s : string) : string :=
  String.substring (Z.to_nat i) (String.length s - Z.to_nat i) s.

Definition startswith (p s : string) : bool := String.prefix p s.

Fixpoint endswith_slash (s : string) : bool :=
  match s with
  | EmptyString => false
  | String c EmptyString => Ascii.eqb c "/"
  | String _ s' => endswith_slash s'
  end.

(** [sep.join(parts)]. *)
Fixpoint join (sep : string) (parts : list string) : string :=
  match parts with
  | [] => ""
  | [p] => p
  | p :: ps => p ++ sep ++ join sep ps
  end.

End Str.

(** [os.path.join(a, b)] of [posixpath]. *)
Definition os_path_join (a b : string) : string :=
  if Str.startswith "/" b then b
  else if (String.eqb a "" || Str.endswith_slash a)%bool then a ++ b
  else a ++ "/" ++ b.

(** [pathlib.PurePosixPath], already parsed: whether it is anchored at the
  root, and its components (none of them empty or containing a slash). *)
Record Path : Type := mkPath { anchored : bool; parts : list string }.

Module PathOps.

(** [path.name]: the final component, empty for [.] and [/]. *)
Definition name (p : Path) : string := List.last (parts p) "".

(** [path.suffix]:
<<
    i = name.rfind('.')
    if 0 < i < len(name) - 1: return name[i:]
    else: return ''
>> *)
Definition suffix (p : Path) : string :=
  let n := name p in
  let i := Str.rfind "." n in
  if ((0 <? i) && (i <? Str.len n - 1))%bool then Str.drop i n else "".

(** [path.stem]: the name without its suffix. *)
Definition stem (p : Path) : string :=
  let n := name p in
  let i := Str.rfind "." n in
  if ((0 <? i) && (i <? Str.len n - 1))%bool then Str.take i n else n.

(** [path.parent]: the path without its final component; [.] and [/] are
    their own parents. *)
Definition parent (p : Path) : Path :=
  mkPath (anchored p) (List.removelast (parts p)).

(** [str(path)]. *)
Definition to_str (p : Path) : string :=
  if anchored p then "/" ++ Str.join "/" (parts p)
  else match parts p with
       | [] => "."
       | _ => Str.join "/" (parts p)
       end.

End PathOps.

(** ** Exceptions, tables, events *)

(** The exception classes the code raises or lets through, and the two the
    specification names ([ConfigurationError], [RunNotActiveError]). *)
Inductive ExnKind : Type :=
| FileNotFoundError | ValueError | AttributeError | TypeError
| MlflowException | PackageNotFoundError | GitError | ParserError
| ConfigurationError | RunNotActiveError.

Record Exn : Type := mkExn { kind : ExnKind; message : string }.

(** A [pandas.DataFrame]: its rows, each a mapping from column to value. *)
Definition Table : Type := list Dict.

(** [df.shape[0]]. *)
Definition shape0 (df : Table) : Z := Z.of_nat (length df).

(** What [mlflow.data.pandas_dataset.from_pandas] builds. *)
Record Dataset : Type := mkDataset {
  ds_data : Table;
  ds_source : string;
  ds_name : string
}.

Inductive Level : Type := INFO | WARNING | ERROR.

(** One call that leaves the process: to the logger sink or to the tracking
    SDK. *)
Inductive Event : Type :=
| Logged (lvl : Level) (template : string) (args : list string)
| LoadDotenv (override : bool)
| SetTrackingUri (uri : string)
| EnableAsyncLogging (enable : bool)
| OpenaiAutolog
| SetExperiment (experiment_name : string)
| StartRun (run_name : option string) (run_id : string)
| EndRun
| SetTag (key value : string)
| LogMetric (key : string) (value : Value)
| LogParam (key : string) (value : Value)
| LogTable (df : Table) (artifact_file : string)
| LogArtifact (file_name content artifact_path : string)
| LogInput (dataset : Dataset).

(** ** The world the code runs in *)

(** What the code reads from libraries and the operating system and cannot
    change: a result of [None] stands for the call raising. *)
Record Env : Type := mkEnv {
  json_dumps : Value -> option string;
  parse_json : string -> option Table;
  parse_csv : string -> option Table;
  parse_parquet : string -> option Table;
  mkdtemp : nat -> string;
  new_run_id : nat -> string;
  now_strftime : string;
  now_isoformat : string;
  uuid4_hex : string;
  metadata_version : string -> option string;
  git_head : option (string * string);
  nodename : string
}.

Record World : Type := mkWorld {
  files : gmap string string;
  tmp_seq : nat;
  active_run : option string;
  run_seq : nat;
  events : list Event
}.

Inductive Result (A : Type) : Type :=
| Ok (a : A)
| Raised (e : Exn).
Arguments Ok {A} a.
Arguments Raised {A} e.

(** A computation: it changes the world and returns or raises. *)
Definition M (A : Type) : Type := World -> World * Result A.

Definition ret {A} (a : A) : M A := fun w => (w, Ok a).

Definition bind {A B} (m : M A) (k : A -> M B) : M B :=
  fun w => match m w with
           | (w', Ok a) => k a w'
           | (w', Raised e) => (w', Raised e)
           end.

Declare Scope py_scope.
Delimit Scope py_scope with py.
Notation "x ← y ; z" := (bind y (fun x => z))
  (at level 20, y at level 100, z at level 200, only parsing) : py_scope.
Notation "y ;; z" := (bind y (fun _ => z))
  (at level 100, z at level 200, only parsing, right associativity) : py_scope.
Local Open Scope py_scope.

Definition raise {A} (k : ExnKind) (msg : string) : M A :=
  fun w => (w, Raised (mkExn k msg)).

(** [try: m  except BaseException as e: handler e]. *)
Definition try_except {A} (m : M A) (handler : Exn -> M A) : M A :=
  fun w => match m w with
           | (w', Ok a) => (w', Ok a)
           | (w', Raised e) => handler e w'
           end.

(** [try: m  finally: cleanup]. *)
Definition try_finally {A} (m : M A) (cleanup : M unit) : M A :=
  fun w => match m w with
           | (w', r) =>
               match cleanup w' with
               | (w'', Ok _) => (w'', r)
               | (w'', Raised e) => (w'', Raised e)
               end
           end.

(** The world after one more call has been recorded. *)
Definition record (e : Event) (w : World) : World :=
  mkWorld (files w) (tmp_seq w) (active_run w) (run_seq w) (events w ++ [e]).

Definition emit (e : Event) : M unit := fun w => (record e w, Ok tt).

(** The world after the calls [evs] have been recorded, oldest first. *)
Definition record_all (evs : list Event) (w : World) : World :=
  foldl (fun w e => record e w) w evs.

Definition option_str (o : option string) : string :=
  match o with Some s => s | None => "None" end.

(** ** The logger sink *)

Definition logger_info (template : string) (args : list string) : M unit :=
  emit (Logged INFO template args).
Definition logger_warning (template : string) (args : list string) : M unit :=
  emit (Logged WARNING template args).
Definition logger_error (template : string) (args : list string) : M unit :=
  emit (Logged ERROR template args).

(** ** The filesystem *)

(** Only regular files are modelled: a path exists when a file is stored
    under its string. *)
Definition path_exists (p : Path) : M bool :=
  fun w => (w, Ok (bool_decide (is_Some (files w !! PathOps.to_str p)))).

(** [open(path, "r").read()]. *)
Definition read_text (path : string) : M string :=
  fun w => match files w !! path with
           | Some content => (w, Ok content)
           | None => (w, Raised (mkExn FileNotFoundError path))
           end.

(** [open(path, "w").write(content)]. *)
Definition write_text (path content : string) : M unit :=
  fun w => (mkWorld (<[path := content]> (files w)) (tmp_seq w) (active_run w)
                    (run_seq w) (events w), Ok tt).

(** [os.path.basename]. *)
Definition basename (path : string) : string :=
  Str.drop (Str.rfind "/" path + 1) path.

Section WithEnv.

Context (env : Env).

(** [tempfile.TemporaryDirectory().__enter__()]: a directory nothing else
    names. *)
Definition TemporaryDirectory : M string :=
  fun w => (mkWorld (files w) (S (tmp_seq w)) (active_run w) (run_seq w) (events w),
            Ok (mkdtemp env (tmp_seq w))).

(** ** The tracking SDK *)

(** [mlflow.active_run().info.run_id]; [active_run()] is [None] outside a
    run. *)
Definition mlflow_active_run_id : M string :=
  fun w => match active_run w with
           | Some id => (w, Ok id)
           | None => (w, Raised (mkExn AttributeError
                                   "'NoneType' object has no attribute 'info'"))
           end.

Definition mlflow_start_run (run_name : option string) : M unit :=
  fun w => match active_run w with
           | Some id => (w, Raised (mkExn MlflowException
                                      ("Run with UUID " ++ id ++ " is already active.")))
           | None =>
               let id := new_run_id env (run_seq w) in
               (mkWorld (files w) (tmp_seq w) (Some id) (S (run_seq w))
                        (events w ++ [StartRun run_name id]), Ok tt)
           end.

Definition mlflow_end_run : M unit :=
  fun w => (mkWorld (files w) (tmp_seq w) None (run_seq w) (events w ++ [EndRun]), Ok tt).

(** The fluent logging calls start a run when none is active. *)
Definition mlflow_get_or_start_run : M unit :=
  fun w => match active_run w with
           | Some _ => (w, Ok tt)
           | None => mlflow_start_run None w
           end.

(** The world once [mlflow_get_or_start_run] has run. *)
Definition started (w : World) : World :=
  match active_run w with
  | Some _ => w
  | None =>
      mkWorld (files w) (tmp_seq w) (Some (new_run_id env (run_seq w)))
        (S (run_seq w)) (events w ++ [StartRun None (new_run_id env (run_seq w))])
  end.

Definition mlflow_set_tracking_uri (uri : string) : M unit := emit (SetTrackingUri uri).
Definition mlflow_enable_async_logging (enable : bool) : M unit := emit (EnableAsyncLogging enable).
Definition mlflow_openai_autolog : M unit := emit OpenaiAutolog.
Definition mlflow_set_experiment (experiment_name : string) : M unit :=
  emit (SetExperiment experiment_name).

Definition mlflow_set_tag (key value : string) : M unit :=
  mlflow_get_or_start_run;; emit (SetTag key value).
Definition mlflow_log_metric (key : string) (value : Value) : M unit :=
  mlflow_get_or_start_run;; emit (LogMetric key value).
Definition mlflow_log_param (key : string) (value : Value) : M unit :=
  mlflow_get_or_start_run;; emit (LogParam key value).
Definition mlflow_log_table (df : Table) (artifact_file : string) : M unit :=
  mlflow_get_or_start_run;; emit (LogTable df artifact_file).
Definition mlflow_log_input (dataset : Dataset) : M unit :=
  mlflow_get_or_start_run;; emit (LogInput dataset).

(** [mlflow.log_artifact(local_path, artifact_path)] stores the file's
    content under its base name in the directory [artifact_path]. *)
Definition mlflow_log_artifact (local_path artifact_path : string) : M unit :=
  mlflow_get_or_start_run;;
  content ← read_text local_path;
  emit (LogArtifact (basename local_path) content artifact_path).

(** ** [utils/configs.py]: [MlflowLoggerConfig] *)

(** The declared fields; [extra="allow"] keeps the undeclared keys, which
    are read as attributes too.  A URL is carried by its
    [unicode_string()]. *)
Record MlflowLoggerConfig : Type := mkMlflowLoggerConfig {
  tracking_uri : option string;
  remote_tracking_uri : option string;
  instance : string;
  remote_flag : bool;
  trace : bool;
  templates_path : Path;
  artifact_path : string;
  run_name : option string;
  model_extra : gmap string string
}.

(** [config.<name>] for an undeclared field. *)
Definition getattr_extra (config : MlflowLoggerConfig) (name : string) : M string :=
  match model_extra config !! name with
  | Some v => ret v
  | None => raise AttributeError
              ("'MlflowLoggerConfig' object has no attribute '" ++ name ++ "'")
  end.

(** [url.unicode_string()] on an optional URL. *)
Definition unicode_string (url : option string) : M string :=
  match url with
  | Some u => ret u
  | None => raise AttributeError
              "'NoneType' object has no attribute 'unicode_string'"
  end.

(** ** [utils/experiment_logger.py]: [MlflowLogger] *)

Record MlflowLogger : Type := mkMlflowLogger {
  _config : MlflowLoggerConfig;
  _experiment_name : string;
  _run_name : option string;
  _artifact_path : string;
  _templates_path : Path
}.

Definition dotenv_load_dotenv (override : bool) : M unit := emit (LoadDotenv override).

Definition _setup (self : MlflowLogger) : M unit :=
  dotenv_load_dotenv true;;
  uri ← (if remote_flag (_config self) then
           uri ← unicode_string (remote_tracking_uri (_config self));
           logger_info "Using remote MLflow tracking URI: %s" [uri];;
           ret uri
         else
           uri ← unicode_string (tracking_uri (_config self));
           logger_info "Using local MLflow tracking URI: %s" [uri];;
           ret uri);
  mlflow_set_tracking_uri uri;;
  mlflow_enable_async_logging true;;
  (if trace (_config self) then
     mlflow_openai_autolog;;
     logger_info "MLflow OpenAI autologging enabled." []
   else ret tt);;
  logger_info "MLflow logging enabled with async mode on %s"
    [option_str (tracking_uri (_config self))].

Definition __init__ (config : MlflowLoggerConfig) : M MlflowLogger :=
  experiment_name ← getattr_extra config "experiment_name";
  let self := mkMlflowLogger config experiment_name (run_name config)
                (artifact_path config) (templates_path config) in
  _setup self;;
  ret self.

(** [json.dumps(value)]. *)
Definition json_dumps_call (value : Value) : M string :=
  match json_dumps env value with
  | Some s => ret s
  | None => raise TypeError "Object is not JSON serializable"
  end.

(** The body of the loop of [log_dict]. *)
Definition log_dict_item (item : string * Value) : M unit :=
  let '(key, value) := item in
  if isinstance value [c_int; c_float] then mlflow_log_metric key value
  else if isinstance value [c_str] then mlflow_log_param key value
  else s ← json_dumps_call value; mlflow_log_param key (VStr s).

Fixpoint log_dict (self : MlflowLogger) (data : Dict) : M unit :=
  match data with
  | [] => ret tt
  | item :: rest => log_dict_item item;; log_dict self rest
  end.

(** [pd.read_json(path, orient="records")] and its siblings: read the file,
    then parse it. *)
Definition pd_read (parse : string -> option Table) (path : Path) : M Table :=
  content ← read_text (PathOps.to_str path);
  match parse content with
  | Some df => ret df
  | None => raise ParserError "could not parse the file"
  end.

Definition pd_read_json : Path -> M Table := pd_read (parse_json env).
Definition pd_read_csv : Path -> M Table := pd_read (parse_csv env).
Definition pd_read_parquet : Path -> M Table := pd_read (parse_parquet env).

(** [str(e)]. *)
Definition exn_str (e : Exn) : string := message e.

(** [with tempfile.TemporaryDirectory() as temp_dir: body]: on leaving the
    block, however it is left, the directory and the files in it are
    removed. *)
Definition rmtree (dir : string) : M unit :=
  fun w => (mkWorld (filter (fun kv => negb (Str.startswith (dir ++ "/") kv.1) = true) (files w))
                    (tmp_seq w) (active_run w) (run_seq w) (events w), Ok tt).

Definition with_TemporaryDirectory {A} (body : string -> M A) : M A :=
  temp_dir ← TemporaryDirectory;
  try_finally (body temp_dir) (rmtree temp_dir).

Definition _log_jinja_templates (self : MlflowLogger) (file_path : Path) : M unit :=
  ex ← path_exists file_path;
  if ex then
    logger_info "Logging template from: %s" [PathOps.to_str file_path];;
    with_TemporaryDirectory (fun temp_dir =>
      let dest_path := os_path_join temp_dir (PathOps.name file_path ++ ".txt") in
      content ← read_text (PathOps.to_str file_path);
      write_text dest_path content;;
      mlflow_log_artifact dest_path
        (os_path_join (_artifact_path self) (PathOps.name (PathOps.parent file_path))))
  else ret tt.

(** How one pass through the body of the loop of [log_experiment_data]
    ends: at the end of the body or at [continue] ([Next]), or at a
    [return] ([Return]). *)
Inductive Flow : Type := Next | Return.

(** Lines 120-132: the [if]/[elif] on the suffix.  [Next] falls through to
    the plain-artifact logging below it. *)
Definition log_by_suffix (self : MlflowLogger) (data_path : Path) : M Flow :=
  if String.eqb (Str.lower (PathOps.suffix data_path)) ".json" then
    try_except
      (df ← pd_read_json data_path;
       mlflow_log_table df (PathOps.name data_path);;
       if shape0 df =? 1 then
         log_dict self (List.hd [] df);;
         ret Return
       else ret Next)
      (fun e =>
         logger_error "Error reading JSON file %s: %s"
           [PathOps.to_str data_path; exn_str e];;
         ret Next)
  else if String.eqb (Str.lower (PathOps.suffix data_path)) ".jinja2" then
    _log_jinja_templates self data_path;;
    ret Return
  else ret Next.

(** The body of the loop of [log_experiment_data], for one path. *)
Definition log_experiment_data_path (self : MlflowLogger) (data_path : Path) : M Flow :=
  ex ← path_exists data_path;
  if negb ex then
    logger_warning "Data path %s does not exist, skipping logging."
      [PathOps.to_str data_path];;
    ret Next
  else
    flow ← log_by_suffix self data_path;
    match flow with
    | Return => ret Return
    | Next =>
        mlflow_log_artifact (PathOps.to_str data_path)
          (os_path_join (_artifact_path self) (PathOps.name (PathOps.parent data_path)));;
        logger_info "Logged artifact: %s" [PathOps.to_str data_path];;
        ret Next
    end.

Fixpoint log_experiment_data (self : MlflowLogger) (data_paths : list Path) : M unit :=
  match data_paths with
  | [] => ret tt
  | data_path :: rest =>
      flow ← log_experiment_data_path self data_path;
      match flow with
      | Return => ret tt
      | Next => log_experiment_data self rest
      end
  end.

(** The loop of [log_experiment_data] again, telling how it was left: [Next]
    when the paths were exhausted, [Return] when a [return] ended it.  It
    says where the loop stands after a prefix of the paths. *)
Fixpoint log_experiment_data_loop (self : MlflowLogger) (data_paths : list Path) : M Flow :=
  match data_paths with
  | [] => ret Next
  | data_path :: rest =>
      flow ← log_experiment_data_path self data_path;
      match flow with
      | Return => ret Return
      | Next => log_experiment_data_loop self rest
      end
  end.

(** The values [log_dict] can record: numbers and strings as they are, any
    other value when [json.dumps] accepts it. *)
Definition loggable (value : Value) : bool :=
  isinstance value [c_int; c_float] || isinstance value [c_str]
  || bool_decide (is_Some (json_dumps env value)).

Definition dict_loggable (data : Dict) : bool := forallb (fun item => loggable item.2) data.

(** The call to the tracking SDK that one entry of a dictionary stands for,
    when it has one. *)
Definition entry_event (item : string * Value) : option Event :=
  let '(key, value) := item in
  if isinstance value [c_int; c_float] then Some (LogMetric key value)
  else if isinstance value [c_str] then Some (LogParam key value)
  else match json_dumps env value with
       | Some s => Some (LogParam key (VStr s))
       | None => None
       end.

Definition log_input (self : MlflowLogger) (input_path : Path) : M unit :=
  ex ← path_exists input_path;
  if negb ex then
    raise FileNotFoundError
      ("The input path " ++ PathOps.to_str input_path ++ " does not exist.")
  else
    logger_info "Loading input data from %s" [PathOps.to_str input_path];;
    let format := Str.lower (PathOps.suffix input_path) in
    input_data ←
      (if String.eqb format ".json" then pd_read_json input_path
       else if String.eqb format ".csv" then pd_read_csv input_path
       else if String.eqb format ".parquet" then pd_read_parquet input_path
       else raise ValueError
              ("Unsupported file format: " ++ format
               ++ ". Only .json, .csv, and .parquet are supported."));
    let dataset := mkDataset input_data (PathOps.to_str input_path)
                     (PathOps.stem input_path) in
    mlflow_log_input dataset.

(** [importlib.metadata.version(name)]. *)
Definition importlib_metadata_version (name : string) : M string :=
  match metadata_version env name with
  | Some v => ret v
  | None => raise PackageNotFoundError name
  end.

(** [Repo(search_parent_directories=True)], then the commit hash and the
    branch name of its head. *)
Definition git_repo_head : M (string * string) :=
  match git_head env with
  | Some h => ret h
  | None => raise GitError "no usable repository"
  end.

Definition _log_metadata (self : MlflowLogger) : M unit :=
  project_name ← getattr_extra (_config self) "project_name";
  mlflow_set_tag "project_name" project_name;;
  try_except
    (project_name ← getattr_extra (_config self) "project_name";
     version ← importlib_metadata_version project_name;
     mlflow_set_tag "project_version" version)
    (fun _ => ret tt);;
  try_except
    (head ← git_repo_head;
     mlflow_set_tag "git_commit" head.1;;
     mlflow_set_tag "git_branch" head.2)
    (fun _ => ret tt);;
  mlflow_set_tag "run_host" (nodename env);;
  mlflow_set_tag "run_datetime" (now_isoformat env).

Definition set_run_name (self : MlflowLogger) (run_name : string) : MlflowLogger :=
  mkMlflowLogger (_config self) (_experiment_name self) (Some run_name)
    (_artifact_path self) (_templates_path self).

Definition __enter__ (self : MlflowLogger) : M MlflowLogger :=
  let self :=
    match _run_name self with
    | None =>
        let timestamp := now_strftime env in
        let random_id := Str.take 6 (uuid4_hex env) in
        set_run_name self ("run_" ++ timestamp ++ "_" ++ random_id)
    | Some _ => self
    end in
  mlflow_set_experiment (_experiment_name self);;
  mlflow_start_run (_run_name self);;
  logger_info "Started MLflow run with name: %s" [option_str (_run_name self)];;
  run_id ← mlflow_active_run_id;
  logger_info "Active run ID: %s" [run_id];;
  _log_metadata self;;
  ret self.

(** [__exit__] receives the exception that left the block, if any, and has
    no [return] statement: it returns [None]. *)
Definition __exit__ (self : MlflowLogger) (exc_value : option Exn) : M Value :=
  logger_info "Result logged to MLflow." [];;
  run_id ← mlflow_active_run_id;
  logger_info "MLflow run ID: %s" [run_id];;
  mlflow_end_run;;
  ret VNone.

(** The tags [_log_metadata] sets for a project, in order: the version and
    the two tags of the repository only when they can be read. *)
Definition metadata_tags (project_name : string) : list Event :=
  [SetTag "project_name" project_name]
  ++ match metadata_version env project_name with
     | Some version => [SetTag "project_version" version]
     | None => []
     end
  ++ match git_head env with
     | Some head => [SetTag "git_commit" head.1; SetTag "git_branch" head.2]
     | None => []
     end
  ++ [SetTag "run_host" (nodename env); SetTag "run_datetime" (now_isoformat env)].

(** The name [__enter__] gives the run: the configured one, or a generated
    one. *)
Definition resolved_run_name (self : MlflowLogger) : string :=
  match _run_name self with
  | Some run_name => run_name
  | None => "run_" ++ now_strftime env ++ "_" ++ Str.take 6 (uuid4_hex env)
  end.

(** [bool(value)]. *)
Definition truthy (value : Value) : bool :=
  match value with
  | VNone => false
  | VBool b => b
  | VInt z => negb (z =? 0)
  | VFloat r => negb (String.eqb r "0.0" || String.eqb r "-0.0")
  | VStr s => negb (String.eqb s "")
  | VList l => negb (Nat.eqb (length l) 0)
  | VDict d => negb (Nat.eqb (length d) 0)
  | VObject _ => true
  end.

(** The [with] statement of the language:
<<
    with self as value:
        body(value)
>>
    [__exit__] runs however the block is left; an exception that left the
    block is raised again unless [__exit__] returns a true value. *)
Definition with_statement (self : MlflowLogger) (body : MlflowLogger -> M unit) : M unit :=
  value ← __enter__ self;
  fun w =>
    match body value w with
    | (w', Ok _) => (__exit__ value None;; ret tt) w'
    | (w', Raised e) =>
        (suppress ← __exit__ value (Some e);
         if truthy suppress then ret tt else fun w'' => (w'', Raised e)) w'
    end.

End WithEnv.

(** ** [utils/configs.py]: [YamlBaseSettings] *)

(** The keys of [model_config] the code reads or the subclasses set.  A
    field is [None] when the key is absent or holds [None]; a declared path
    is a [str], as in both subclasses. *)
Record SettingsConfigDict : Type := mkSettingsConfigDict {
  yaml_file : option string;
  yaml_file_encoding : option string;
  case_sensitive : bool;
  extra : string
}.

(** A settings source is a callable returning the keys it defines.  The four
    sources handed to [settings_customise_sources] are given by what they
    return; a YAML source is given by the arguments of its constructor. *)
Inductive PydanticBaseSettingsSource : Type :=
| GivenSource (label : string) (values : gmap string Value)
| YamlConfigSettingsSource (settings_cls : string) (yaml_file : string)
    (yaml_file_encoding : string).

(** [if yaml_path:] on an optional [str]: [None] and the empty string are
    false. *)
Definition truthy_path (yaml_path : option string) : bool :=
  match yaml_path with
  | Some p => negb (String.eqb p "")
  | None => false
  end.

(** In the branch that adds the YAML source, [yaml_path] is a path. *)
Definition settings_customise_sources (model_config : SettingsConfigDict)
    (settings_cls : string)
    (init_settings env_settings dotenv_settings file_secret_settings :
       PydanticBaseSettingsSource) : list PydanticBaseSettingsSource :=
  let sources :=
    [init_settings; env_settings; dotenv_settings; file_secret_settings] in
  let yaml_path := yaml_file model_config in
  if truthy_path yaml_path then
    sources ++ [YamlConfigSettingsSource settings_cls (default "" yaml_path)
                  (default "utf-8" (yaml_file_encoding model_config))]
  else sources.

Definition GlobalConfig_model_config : SettingsConfigDict :=
  mkSettingsConfigDict (Some "configs/global.yaml") (Some "utf-8") false "allow".

Definition MlflowLoggerConfig_model_config : SettingsConfigDict :=
  mkSettingsConfigDict (Some "configs/mlflow_logger.yaml") (Some "utf-8") false "allow".

(** Calling a source: [load_yaml file encoding] is what the YAML file
    holds. *)
Definition call_source (load_yaml : string -> string -> gmap string Value)
    (source : PydanticBaseSettingsSource) : gmap string Value :=
  match source with
  | GivenSource _ values => values
  | YamlConfigSettingsSource _ file encoding => load_yaml file encoding
  end.

(** How the settings library builds the values of a settings object from the
    tuple that [settings_customise_sources] returns (specification, 4.1:
    iterate the sources in order, the first source defining a key wins): it
    starts from the empty state and, source by source, keeps what the state
    has and adds the keys it lacks. *)
Definition build_values (load_yaml : string -> string -> gmap string Value)
    (sources : list PydanticBaseSettingsSource) : gmap string Value :=
  foldl (fun state source => state ∪ call_source load_yaml source) ∅ sources.

(** The value of the first mapping, in order, that defines [key]. *)
Definition first_defined (key : string) (states : list (gmap string Value)) : option Value :=
  foldr (fun state later => match state !! key with
                            | Some v => Some v
                            | None => later
                            end) None states.

(** ** [utils/configs_provider.py]: [BaseConfigProvider] *)

(** Objects live in a heap and are named by their address, so that identity
    can be told from equality. *)
Inductive Object : Type :=
| GlobalConfigObject (log_level : string)
| MlflowLoggerConfigObject (config : MlflowLoggerConfig)
| BaseConfigProviderObject (_global_config _mlflow_config : nat).

Record Process : Type := mkProcess {
  _instances : gmap string nat;
  heap : gmap nat Object;
  next_address : nat
}.

(** What constructing each settings object yields in this process: its
    values, or the error of the settings library. *)
Record SettingsLoader : Type := mkSettingsLoader {
  load_GlobalConfig : Result string;
  load_MlflowLoggerConfig : Result MlflowLoggerConfig
}.

Definition allocate (o : Object) (p : Process) : Process * nat :=
  (mkProcess (_instances p) (<[next_address p := o]> (heap p)) (S (next_address p)),
   next_address p).

(** [BaseConfigProvider.__init__], with the allocation of the provider
    itself: both settings objects are constructed, then stored. *)
Definition BaseConfigProvider_new (loader : SettingsLoader) (p : Process)
    : Process * Result nat :=
  match load_GlobalConfig loader with
  | Raised e => (p, Raised e)
  | Ok log_level =>
      let '(p1, g) := allocate (GlobalConfigObject log_level) p in
      match load_MlflowLoggerConfig loader with
      | Raised e => (p1, Raised e)
      | Ok config =>
          let '(p2, m) := allocate (MlflowLoggerConfigObject config) p1 in
          let '(p3, self) := allocate (BaseConfigProviderObject g m) p2 in
          (p3, Ok self)
      end
  end.

(** Modelled from the spec: [SingletonMeta] of [utils/singleton.py], which is
    imported by [configs_provider.py] and is not among the sources.  The
    specification (3, 4.2, 8) makes the provider a process-wide singleton:
    the first construction creates the instance and caches it under its
    class, later constructions return the cached instance, and a failed
    construction caches nothing.
<<
    class SingletonMeta(type):
        _instances = {}
        def __call__(cls):
            if cls not in cls._instances:
                cls._instances[cls] = super().__call__()
            return cls._instances[cls]
>> *)
Definition SingletonMeta_call (cls : string)
    (construct : Process -> Process * Result nat) (p : Process)
    : Process * Result nat :=
  match _instances p !! cls with
  | Some instance => (p, Ok instance)
  | None =>
      match construct p with
      | (p', Ok instance) =>
          (mkProcess (<[cls := instance]> (_instances p')) (heap p') (next_address p'),
           Ok instance)
      | (p', Raised e) => (p', Raised e)
      end
  end.

(** [BaseConfigProvider()]. *)
Definition BaseConfigProvider (loader : SettingsLoader) : Process -> Process * Result nat :=
  SingletonMeta_call "BaseConfigProvider" (BaseConfigProvider_new loader).

(** The properties [global_config] and [mlflow_configs] of the provider at
    address [self]: the addresses of the objects it holds. *)
Definition global_config (p : Process) (self : nat) : option nat :=
  match heap p !! self with
  | Some (BaseConfigProviderObject g _) => Some g
  | _ => None
  end.

Definition mlflow_configs (p : Process) (self : nat) : option nat :=
  match heap p !! self with
  | Some (BaseConfigProviderObject _ m) => Some m
  | _ => None
  end.

(** ** A concrete world

    One environment, filesystem and logger on which the statements below
    are run. *)

Module Sample.

Definition dumps (value : Value) : option string :=
  match value with
  | VNone => Some "null"
  | VBool true => Some "true"
  | VBool false => Some "false"
  | VList [] => Some "[]"
  | VDict [] => Some "{}"
  | _ => None
  end.

(** What [pandas] reads from the sample files.  The content of a file is
    only a key for this function: [a.json] holds one record, [c.json] one
    record with a date column, which [pandas] reads as a [Timestamp],
    [m.json] two records, [x.parquet] two rows; the other files do not
    parse. *)
Definition parse (content : string) : option Table :=
  if String.eqb content "[{'acc': 0.9, 'ok': true, 'tag': 'x'}]" then
    Some [[("acc", VFloat "0.9"); ("ok", VBool true); ("tag", VStr "x")]]
  else if String.eqb content "[{'acc': 1, 'date': '2024-01-01'}]" then
    Some [[("acc", VInt 1); ("date", VObject "Timestamp")]]
  else if String.eqb content "[{'a': 1}, {'a': 2}]" then
    Some [[("a", VInt 1)]; [("a", VInt 2)]]
  else if String.eqb content "PAR1" then
    Some [[("x", VInt 1)]; [("x", VInt 2)]]
  else None.

Definition env : Env :=
  mkEnv dumps parse parse parse (fun _ => "/tmp/tmpdir") (fun _ => "run0")
    "20240101_120000" "2024-01-01T12:00:00" "abcdef0123"
    (fun _ => None) None "host".

Definition path (dir file : string) : Path := mkPath false [dir; file].

Definition fs : gmap string string :=
  <["d/a.json" := "[{'acc': 0.9, 'ok': true, 'tag': 'x'}]"]>
  (<["d/c.json" := "[{'acc': 1, 'date': '2024-01-01'}]"]>
  (<["d/m.json" := "[{'a': 1}, {'a': 2}]"]>
  (<["d/e.json" := "not json"]>
  (<["d/b.txt" := "hello"]>
  (<["d/t.jinja2" := "Hello {{ name }}"]>
  (<["d/x.parquet" := "PAR1"]> ∅)))))).

(** No run is active. *)
Definition idle : World := mkWorld fs 0 None 0 [].

(** A run is active. *)
Definition running : World := mkWorld fs 0 (Some "run0") 1 [StartRun None "run0"].

Definition config : MlflowLoggerConfig :=
  mkMlflowLoggerConfig (Some "http://localhost:5000/") None "local" false false
    (mkPath false ["templates"]) "artifacts" None
    (<["experiment_name" := "exp"]> (<["project_name" := "proj"]> ∅)).

(** The remote endpoint is selected and is absent. *)
Definition config_remote_missing : MlflowLoggerConfig :=
  mkMlflowLoggerConfig (Some "http://localhost:5000/") None "local" true false
    (mkPath false ["templates"]) "artifacts" None
    (<["experiment_name" := "exp"]> (<["project_name" := "proj"]> ∅)).

Definition self : MlflowLogger :=
  mkMlflowLogger config "exp" None "artifacts" (mkPath false ["templates"]).

(** The logger once [__enter__] has named its run. *)
Definition entered : MlflowLogger := set_run_name self "run_20240101_120000_abcdef".

(** A block that records a metric and then raises. *)
Definition failing_body (value : MlflowLogger) : M unit :=
  log_dict env value [("ok", VBool true)];;
  raise ValueError "boom".

(** A logger whose configuration carries no [project_name]. *)
Definition self_without_project : MlflowLogger :=
  mkMlflowLogger
    (mkMlflowLoggerConfig (Some "http://localhost:5000/") None "local" false false
       (mkPath false ["templates"]) "artifacts" None
       (<["experiment_name" := "exp"]> ∅))
    "exp" None "artifacts" (mkPath false ["templates"]).

(** A block that ends the run itself and then raises. *)
Definition ending_body (value : MlflowLogger) : M unit :=
  mlflow_end_run;;
  raise ValueError "boom".

Definition loader : SettingsLoader := mkSettingsLoader (Ok "INFO") (Ok config).

Definition fresh : Process := mkProcess ∅ ∅ 0.

End Sample.

(** * Properties *)

(** ** Running computations *)

Lemma bind_Ok {A B} (m : M A) (k : A -> M B) w w' a :
  m w = (w', Ok a) -> bind m k w = k a w'.
Proof. intros H. unfold bind. now rewrite H. Qed.

Lemma bind_Raised {A B} (m : M A) (k : A -> M B) w w' e :
  m w = (w', Raised e) -> bind m k w = (w', Raised e).
Proof. intros H. unfold bind. now rewrite H. Qed.

Lemma bind_assoc {A B C} (m : M A) (k : A -> M B) (h : B -> M C) w :
  bind (bind m k) h w = bind m (fun a => bind (k a) h) w.
Proof.
  unfold bind. destruct (m w) as [w1 [a|e]]; reflexivity.
Qed.

Lemma emit_run (e : Event) w : emit e w = (record e w, Ok tt).
Proof. reflexivity. Qed.

(** Python's [bool] is a subclass of [int], and of nothing else that
    [log_dict] asks about. *)
Lemma issubclass_bool_int : issubclass c_bool c_int = true.
Proof. reflexivity. Qed.

Lemma isinstance_bool_number (b : bool) : isinstance (VBool b) [c_int; c_float] = true.
Proof. reflexivity. Qed.

Section BackendAndLogDict.

Context (env : Env).

(** *** The tracking SDK *)

Lemma get_or_start_run_run w : mlflow_get_or_start_run env w = (started env w, Ok tt).
Proof.
  unfold mlflow_get_or_start_run, started, mlflow_start_run.
  destruct (active_run w); reflexivity.
Qed.

Lemma started_active w : is_Some (active_run (started env w)).
Proof. unfold started. destruct (active_run w) eqn:E; simpl; rewrite ?E; eauto. Qed.

Lemma started_idem w : is_Some (active_run w) -> started env w = w.
Proof. intros [id H]. unfold started. now rewrite H. Qed.

Lemma started_files w : files (started env w) = files w.
Proof. unfold started. destruct (active_run w); reflexivity. Qed.

Lemma log_metric_run key value w :
  mlflow_log_metric env key value w = (record (LogMetric key value) (started env w), Ok tt).
Proof. unfold mlflow_log_metric, bind. now rewrite get_or_start_run_run. Qed.

Lemma log_param_run key value w :
  mlflow_log_param env key value w = (record (LogParam key value) (started env w), Ok tt).
Proof. unfold mlflow_log_param, bind. now rewrite get_or_start_run_run. Qed.

Lemma log_table_run df file w :
  mlflow_log_table env df file w = (record (LogTable df file) (started env w), Ok tt).
Proof. unfold mlflow_log_table, bind. now rewrite get_or_start_run_run. Qed.

Lemma log_input_run dataset w :
  mlflow_log_input env dataset w = (record (LogInput dataset) (started env w), Ok tt).
Proof. unfold mlflow_log_input, bind. now rewrite get_or_start_run_run. Qed.

Lemma log_artifact_run local_path artifact_path content w :
  files w !! local_path = Some content ->
  mlflow_log_artifact env local_path artifact_path w =
    (record (LogArtifact (basename local_path) content artifact_path) (started env w), Ok tt).
Proof.
  intros H. unfold mlflow_log_artifact, bind. rewrite get_or_start_run_run.
  unfold read_text. rewrite started_files, H. reflexivity.
Qed.

(** *** [log_dict] *)

Lemma log_dict_app self (pre rest : Dict) w :
  log_dict env self (pre ++ rest)%list w = (log_dict env self pre;; log_dict env self rest) w.
Proof.
  revert w. induction pre as [|item pre IH]; intros w; simpl.
  - reflexivity.
  - rewrite bind_assoc. unfold bind at 1 2.
    destruct (log_dict_item env item w) as [w1 [[]|e]]; [apply IH | reflexivity].
Qed.

(** One entry either is recorded or makes [json.dumps] raise a
    [TypeError]. *)
Lemma log_dict_item_cases item w :
  (loggable env item.2 = true /\ exists ev, log_dict_item env item w = (record ev (started env w), Ok tt))
  \/ (loggable env item.2 = false /\
      log_dict_item env item w = (w, Raised (mkExn TypeError "Object is not JSON serializable"))).
Proof.
  destruct item as [key value]. unfold log_dict_item, loggable. cbn [snd].
  destruct (isinstance value [c_int; c_float]) eqn:E1.
  { left. split; [reflexivity|]. eexists. apply log_metric_run. }
  destruct (isinstance value [c_str]) eqn:E2.
  { left. split; [reflexivity|]. eexists. apply log_param_run. }
  cbn [orb]. unfold json_dumps_call.
  destruct (json_dumps env value) as [s|] eqn:E3.
  - left. split; [apply bool_decide_eq_true; eauto|].
    eexists. unfold bind, ret. apply log_param_run.
  - right. split; [apply bool_decide_eq_false; intros [? ?]; discriminate|].
    reflexivity.
Qed.

Lemma log_dict_loggable self data w :
  dict_loggable env data = true ->
  exists w', log_dict env self data w = (w', Ok tt)
             /\ (data <> [] -> is_Some (active_run w')).
Proof.
  revert w. induction data as [|item data IH]; intros w Hd; simpl.
  - exists w. split; [reflexivity | congruence].
  - simpl in Hd. apply andb_true_iff in Hd as [Hi Hd].
    destruct (log_dict_item_cases item w) as [[_ [ev Hev]]|[Hn _]]; [|congruence].
    destruct (IH (record ev (started env w)) Hd) as [w' [Hw' Ha]].
    exists w'. split.
    + erewrite bind_Ok by exact Hev. exact Hw'.
    + intros _. destruct data as [|item' data'].
      * simpl in Hw'. injection Hw' as <-. simpl. apply started_active.
      * apply Ha. discriminate.
Qed.


(** C10: for every dictionary passed to [log_dict], an entry whose value is a
    boolean is recorded as a metric and not as a parameter: [bool] is a
    subclass of [int], so the test [isinstance(value, (int, float))] holds
    for it and the first branch is taken.  With the entries before it
    recorded, the call on the whole dictionary is the call on the entries
    after it, from the world in which [log_metric] has recorded the
    boolean. *)
Theorem C10_bool_values_are_metrics self (pre rest : Dict) key (b : bool) w w1 :
  log_dict env self pre w = (w1, Ok tt) ->
  isinstance (VBool b) [c_int; c_float] = true
  /\ log_dict_item env (key, VBool b) w1
     = (record (LogMetric key (VBool b)) (started env w1), Ok tt)
  /\ log_dict env self (pre ++ (key, VBool b) :: rest)%list w
     = log_dict env self rest (record (LogMetric key (VBool b)) (started env w1)).
Proof.
  intros Hpre. split; [reflexivity|]. split.
  - apply log_metric_run.
  - rewrite log_dict_app. erewrite bind_Ok by exact Hpre.
    cbn [log_dict]. erewrite bind_Ok by apply log_metric_run. reflexivity.
Qed.


End BackendAndLogDict.

(** C10 on a dictionary with a boolean in second place. *)
Lemma C10_bool_values_are_metrics_witness :
  log_dict Sample.env Sample.self
    [("acc", VFloat "0.9"); ("ok", VBool true); ("tag", VStr "x")] Sample.running
  = log_dict Sample.env Sample.self [("tag", VStr "x")]
      (record (LogMetric "ok" (VBool true))
         (record (LogMetric "acc" (VFloat "0.9")) Sample.running)).
Proof.
  apply (C10_bool_values_are_metrics Sample.env Sample.self
           [("acc", VFloat "0.9")] [("tag", VStr "x")] "ok" true Sample.running
           (record (LogMetric "acc" (VFloat "0.9")) Sample.running)).
  reflexivity.
Defined.



(** ** [log_experiment_data] *)

Section LogExperimentData.

Context (env : Env).

(** The loop over a list of paths is the loop over a prefix, then, had no
    [return] ended it, the loop over the rest. *)
Lemma log_experiment_data_app self (pre rest : list Path) w :
  log_experiment_data env self (pre ++ rest)%list w =
  match log_experiment_data_loop env self pre w with
  | (w', Ok Next) => log_experiment_data env self rest w'
  | (w', Ok Return) => (w', Ok tt)
  | (w', Raised e) => (w', Raised e)
  end.
Proof.
  revert w. induction pre as [|p pre IH]; intros w.
  - reflexivity.
  - cbn [app log_experiment_data log_experiment_data_loop]. unfold bind.
    destruct (log_experiment_data_path env self p w) as [w1 [[|]|e]];
      [apply IH | reflexivity | reflexivity].
Qed.

Lemma path_exists_run p w :
  path_exists p w = (w, Ok (bool_decide (is_Some (files w !! PathOps.to_str p)))).
Proof. reflexivity. Qed.

Lemma path_exists_Some p w content :
  files w !! PathOps.to_str p = Some content -> path_exists p w = (w, Ok true).
Proof.
  intros H. rewrite path_exists_run. f_equal. f_equal.
  apply bool_decide_eq_true. eauto.
Qed.

Lemma path_exists_None p w :
  files w !! PathOps.to_str p = None -> path_exists p w = (w, Ok false).
Proof.
  intros H. rewrite path_exists_run. f_equal. f_equal.
  apply bool_decide_eq_false. rewrite H. intros [? ?]. discriminate.
Qed.

(** A missing path: a warning, then the next path. *)
Lemma missing_path_step self p w :
  files w !! PathOps.to_str p = None ->
  log_experiment_data_path env self p w =
    (record (Logged WARNING "Data path %s does not exist, skipping logging."
               [PathOps.to_str p]) w, Ok Next).
Proof.
  intros H. unfold log_experiment_data_path.
  erewrite bind_Ok by (apply path_exists_None; exact H). reflexivity.
Qed.

Lemma pd_read_json_run p w content df :
  files w !! PathOps.to_str p = Some content ->
  parse_json env content = Some df ->
  pd_read_json env p w = (w, Ok df).
Proof.
  intros Hf Hp. unfold pd_read_json, pd_read, bind, read_text.
  rewrite Hf, Hp. reflexivity.
Qed.

(** A JSON file that holds one record whose values can all be recorded: the
    table, the record, then [return]. *)
Lemma single_row_json_step self p w content row w2 :
  files w !! PathOps.to_str p = Some content ->
  Str.lower (PathOps.suffix p) = ".json" ->
  parse_json env content = Some [row] ->
  log_dict env self row (record (LogTable [row] (PathOps.name p)) (started env w)) = (w2, Ok tt) ->
  log_experiment_data_path env self p w = (w2, Ok Return).
Proof.
  intros Hf Hs Hp Hd. unfold log_experiment_data_path.
  erewrite bind_Ok by (eapply path_exists_Some; exact Hf). cbn [negb].
  unfold log_by_suffix. rewrite Hs. cbn.
  unfold bind at 1. unfold try_except.
  erewrite bind_Ok by (eapply pd_read_json_run; eassumption). cbv beta.
  erewrite bind_Ok by apply log_table_run. cbv beta.
  change (shape0 [row] =? 1) with true. cbv iota. cbn [hd].
  erewrite bind_Ok by exact Hd. reflexivity.
Qed.

(** A template: [_log_jinja_templates], then [return]. *)
Lemma template_step self p w content :
  files w !! PathOps.to_str p = Some content ->
  Str.lower (PathOps.suffix p) = ".jinja2" ->
  log_experiment_data_path env self p w =
    (_log_jinja_templates env self p;; ret Return) w.
Proof.
  intros Hf Hs. unfold log_experiment_data_path.
  erewrite bind_Ok by (eapply path_exists_Some; exact Hf). cbn [negb].
  unfold log_by_suffix. rewrite Hs. cbn.
  unfold bind at 1.
  destruct ((_log_jinja_templates env self p;; ret Return) w) as [w1 [[|]|e]] eqn:E;
    try reflexivity.
  unfold bind, ret in E. destruct (_log_jinja_templates env self p w) as [? [[]|?]];
    discriminate.
Qed.

(** [_log_jinja_templates] on an existing file: the artifact logged holds
    the content of the template, unchanged, under the name of the template
    followed by [.txt]. *)
Lemma log_jinja_templates_copies self p w content :
  files w !! PathOps.to_str p = Some content ->
  exists w',
    _log_jinja_templates env self p w = (w', Ok tt)
    /\ events w' =
       (events (started env (record (Logged INFO "Logging template from: %s"
                                       [PathOps.to_str p]) w))
        ++ [LogArtifact
              (basename (os_path_join (mkdtemp env (tmp_seq w)) (PathOps.name p ++ ".txt")))
              content
              (os_path_join (_artifact_path self) (PathOps.name (PathOps.parent p)))])%list.
Proof.
  intros Hf. unfold _log_jinja_templates.
  erewrite bind_Ok by (eapply path_exists_Some; exact Hf). cbv beta iota.
  erewrite bind_Ok by apply emit_run. cbv beta.
  unfold with_TemporaryDirectory. erewrite bind_Ok by reflexivity. cbv beta.
  unfold try_finally.
  erewrite bind_Ok by (unfold read_text; cbn; rewrite Hf; reflexivity). cbv beta.
  erewrite bind_Ok by reflexivity. cbv beta.
  erewrite log_artifact_run by (cbn; apply lookup_insert_eq).
  cbn. eexists. split; [reflexivity|].
  unfold started. cbn. destruct (active_run w); reflexivity.
Qed.

(** Once the loop reaches a template, the paths after it are not looked
    at. *)
Lemma template_ends_the_loop self pre p rest w w1 content :
  log_experiment_data_loop env self pre w = (w1, Ok Next) ->
  files w1 !! PathOps.to_str p = Some content ->
  Str.lower (PathOps.suffix p) = ".jinja2" ->
  log_experiment_data env self (pre ++ p :: rest)%list w =
    _log_jinja_templates env self p w1.
Proof.
  intros Hpre Hf Hs. rewrite log_experiment_data_app, Hpre.
  cbn [log_experiment_data]. unfold bind at 1.
  erewrite template_step by eassumption. unfold bind, ret.
  destruct (_log_jinja_templates env self p w1) as [w2 [[]|e]]; reflexivity.
Qed.


(** C1, as amended: when the loop of [log_experiment_data] comes to an
    existing path with the extension [.json] (in any case) that parses into
    a table of exactly one row, and the values of that row can all be
    recorded by [log_dict] (numbers, strings, or values [json.dumps]
    accepts), the method logs the table, logs the fields of the row with
    [log_dict], and returns: the result does not depend on the paths after
    it. *)
Theorem C1_single_row_json_ends_the_call self (pre rest : list Path) p w w1 content row :
  log_experiment_data_loop env self pre w = (w1, Ok Next) ->
  files w1 !! PathOps.to_str p = Some content ->
  Str.lower (PathOps.suffix p) = ".json" ->
  parse_json env content = Some [row] ->
  dict_loggable env row = true ->
  exists w2,
    log_dict env self row (record (LogTable [row] (PathOps.name p)) (started env w1))
    = (w2, Ok tt)
    /\ log_experiment_data env self (pre ++ p :: rest)%list w = (w2, Ok tt).
Proof.
  intros Hpre Hf Hs Hp Hd.
  destruct (log_dict_loggable env self row
              (record (LogTable [row] (PathOps.name p)) (started env w1)) Hd)
    as (w2 & Hw2 & _).
  exists w2. split; [exact Hw2|].
  rewrite log_experiment_data_app, Hpre. cbn [log_experiment_data].
  erewrite bind_Ok by (eapply single_row_json_step; eassumption).
  reflexivity.
Qed.

End LogExperimentData.



(** C1 as stated fails: [d/c.json] exists, parses into a table of exactly
    one row, and its row holds a [Timestamp], which [json.dumps] rejects.
    [log_dict] raises after the first field, the handler logs the error, the
    file is logged as a plain artifact, and the call goes on to [d/b.txt]. *)
Lemma C1_counterexample :
  files Sample.idle !! PathOps.to_str (Sample.path "d" "c.json")
    = Some "[{'acc': 1, 'date': '2024-01-01'}]"
  /\ Str.lower (PathOps.suffix (Sample.path "d" "c.json")) = ".json"
  /\ parse_json Sample.env "[{'acc': 1, 'date': '2024-01-01'}]"
     = Some [[("acc", VInt 1); ("date", VObject "Timestamp")]]
  /\ log_experiment_data Sample.env Sample.self
       [Sample.path "d" "c.json"; Sample.path "d" "b.txt"] Sample.idle
     = (mkWorld Sample.fs 0 (Some "run0") 1
          [StartRun None "run0";
           LogTable [[("acc", VInt 1); ("date", VObject "Timestamp")]] "c.json";
           LogMetric "acc" (VInt 1);
           Logged ERROR "Error reading JSON file %s: %s"
             ["d/c.json"; "Object is not JSON serializable"];
           LogArtifact "c.json" "[{'acc': 1, 'date': '2024-01-01'}]" "artifacts/d";
           Logged INFO "Logged artifact: %s" ["d/c.json"];
           LogArtifact "b.txt" "hello" "artifacts/d";
           Logged INFO "Logged artifact: %s" ["d/b.txt"]],
        Ok tt).
Proof.
  repeat split; vm_compute; reflexivity.
Qed.

(** C1 on [d/a.json; d/b.txt]: the call ends with the record of
    [d/a.json]. *)
Lemma C1_single_row_json_ends_the_call_witness :
  log_experiment_data Sample.env Sample.self
    [Sample.path "d" "a.json"; Sample.path "d" "b.txt"] Sample.idle
  = (mkWorld Sample.fs 0 (Some "run0") 1
       [StartRun None "run0";
        LogTable [[("acc", VFloat "0.9"); ("ok", VBool true); ("tag", VStr "x")]] "a.json";
        LogMetric "acc" (VFloat "0.9"); LogMetric "ok" (VBool true);
        LogParam "tag" (VStr "x")],
     Ok tt).
Proof.
  destruct (C1_single_row_json_ends_the_call Sample.env Sample.self
              [] [Sample.path "d" "b.txt"] (Sample.path "d" "a.json")
              Sample.idle Sample.idle "[{'acc': 0.9, 'ok': true, 'tag': 'x'}]"
              [("acc", VFloat "0.9"); ("ok", VBool true); ("tag", VStr "x")]
              eq_refl eq_refl eq_refl eq_refl eq_refl) as (w2 & Hw2 & Hcall).
  cbn [app] in Hcall. rewrite Hcall. rewrite <- Hw2. vm_compute. reflexivity.
Defined.

(** C7: a path with the extension [.jinja2] is copied as it is to a text
    artifact and logged, without the plain-artifact logging, and the method
    should then go on with the remaining paths.  It does not: on
    [d/t.jinja2; d/b.txt] the template is copied to [t.jinja2.txt] and
    logged, then the method returns, and [d/b.txt], which exists and is
    logged when it is given alone, is never logged. *)
Theorem C7_template_ends_the_call :
  log_experiment_data Sample.env Sample.self
    [Sample.path "d" "t.jinja2"; Sample.path "d" "b.txt"] Sample.idle
  = (mkWorld Sample.fs 1 (Some "run0") 1
       [Logged INFO "Logging template from: %s" ["d/t.jinja2"];
        StartRun None "run0";
        LogArtifact "t.jinja2.txt" "Hello {{ name }}" "artifacts/d"],
     Ok tt)
  /\ log_experiment_data Sample.env Sample.self [Sample.path "d" "b.txt"] Sample.idle
     = (mkWorld Sample.fs 0 (Some "run0") 1
          [StartRun None "run0";
           LogArtifact "b.txt" "hello" "artifacts/d";
           Logged INFO "Logged artifact: %s" ["d/b.txt"]],
        Ok tt).
Proof.
  split; vm_compute; reflexivity.
Qed.

(** ** [log_input] *)

Section LogInput.

Context (env : Env).

Lemma pd_read_run parse p w content df :
  files w !! PathOps.to_str p = Some content ->
  parse content = Some df ->
  pd_read parse p w = (w, Ok df).
Proof.
  intros Hf Hp. unfold pd_read, bind, read_text. rewrite Hf, Hp. reflexivity.
Qed.

(** C4: [log_input] raises [FileNotFoundError] when the path does not exist;
    when the path exists and its lowercased extension is none of [.json],
    [.csv], [.parquet] it raises a [ValueError] whose message names that
    extension; and on a file of one of the three formats that parses, it
    records one input dataset, whose name is the stem of the path and whose
    source is the path. *)
Theorem C4_log_input self input_path w :
  (files w !! PathOps.to_str input_path = None ->
   log_input env self input_path w =
     (w, Raised (mkExn FileNotFoundError
                   ("The input path " ++ PathOps.to_str input_path ++ " does not exist."))))
  /\ (is_Some (files w !! PathOps.to_str input_path) ->
      Str.lower (PathOps.suffix input_path) <> ".json" ->
      Str.lower (PathOps.suffix input_path) <> ".csv" ->
      Str.lower (PathOps.suffix input_path) <> ".parquet" ->
      log_input env self input_path w =
        (record (Logged INFO "Loading input data from %s" [PathOps.to_str input_path]) w,
         Raised (mkExn ValueError
                   ("Unsupported file format: " ++ Str.lower (PathOps.suffix input_path)
                    ++ ". Only .json, .csv, and .parquet are supported."))))
  /\ (forall content df,
      files w !! PathOps.to_str input_path = Some content ->
      (Str.lower (PathOps.suffix input_path) = ".json" /\ parse_json env content = Some df)
      \/ (Str.lower (PathOps.suffix input_path) = ".csv" /\ parse_csv env content = Some df)
      \/ (Str.lower (PathOps.suffix input_path) = ".parquet"
          /\ parse_parquet env content = Some df) ->
      log_input env self input_path w =
        (record (LogInput (mkDataset df (PathOps.to_str input_path)
                             (PathOps.stem input_path)))
           (started env
              (record (Logged INFO "Loading input data from %s"
                         [PathOps.to_str input_path]) w)),
         Ok tt)).
Proof.
  split; [|split].
  - intros Hf. unfold log_input.
    erewrite bind_Ok by (apply path_exists_None; exact Hf). reflexivity.
  - intros [content Hf] Hj Hc Hp. unfold log_input.
    erewrite bind_Ok by (eapply path_exists_Some; exact Hf). cbn [negb].
    erewrite bind_Ok by apply emit_run. cbv beta.
    apply String.eqb_neq in Hj, Hc, Hp. rewrite Hj, Hc, Hp.
    reflexivity.
  - intros content df Hf Hfmt. unfold log_input.
    erewrite bind_Ok by (eapply path_exists_Some; exact Hf). cbn [negb].
    erewrite bind_Ok by apply emit_run. cbv beta.
    assert (Hf' : files (record (Logged INFO "Loading input data from %s"
                                   [PathOps.to_str input_path]) w)
                  !! PathOps.to_str input_path = Some content) by exact Hf.
    destruct Hfmt as [[Hs Hp]|[[Hs Hp]|[Hs Hp]]]; rewrite Hs; cbn;
      (erewrite bind_Ok by (eapply pd_read_run; eassumption));
      apply log_input_run.
Qed.

End LogInput.

(** C4 on the sample files: [d/missing.csv] does not exist, [d/b.txt] has an
    extension that is not supported, [d/x.parquet] is recorded under the
    name [x]. *)
Lemma C4_log_input_witness :
  log_input Sample.env Sample.self (Sample.path "d" "missing.csv") Sample.running
    = (Sample.running,
       Raised (mkExn FileNotFoundError "The input path d/missing.csv does not exist."))
  /\ log_input Sample.env Sample.self (Sample.path "d" "b.txt") Sample.running
     = (record (Logged INFO "Loading input data from %s" ["d/b.txt"]) Sample.running,
        Raised (mkExn ValueError
                  "Unsupported file format: .txt. Only .json, .csv, and .parquet are supported."))
  /\ log_input Sample.env Sample.self (Sample.path "d" "x.parquet") Sample.running
     = (record (LogInput (mkDataset [[("x", VInt 1)]; [("x", VInt 2)]] "d/x.parquet" "x"))
          (record (Logged INFO "Loading input data from %s" ["d/x.parquet"]) Sample.running),
        Ok tt).
Proof.
  split; [|split].
  - destruct (C4_log_input Sample.env Sample.self (Sample.path "d" "missing.csv")
                Sample.running) as [H _].
    apply H. vm_compute. reflexivity.
  - destruct (C4_log_input Sample.env Sample.self (Sample.path "d" "b.txt")
                Sample.running) as (_ & H & _).
    apply H; [exists "hello"; vm_compute; reflexivity | vm_compute; discriminate ..].
  - destruct (C4_log_input Sample.env Sample.self (Sample.path "d" "x.parquet")
                Sample.running) as (_ & _ & H).
    apply (H "PAR1" [[("x", VInt 1)]; [("x", VInt 2)]]).
    + vm_compute. reflexivity.
    + right. right. split; vm_compute; reflexivity.
Defined.

(** ** Construction and the run scope *)

Section RunScope.

Context (env : Env).

(** [__exit__] while a run is active: two records, then the run is closed;
    the value returned is [None]. *)
Lemma exit_with_active_run self exc w run_id :
  active_run w = Some run_id ->
  __exit__ self exc w =
    (mkWorld (files w) (tmp_seq w) None (run_seq w)
       (events w ++ [Logged INFO "Result logged to MLflow." [];
                     Logged INFO "MLflow run ID: %s" [run_id];
                     EndRun]),
     Ok VNone).
Proof.
  intros Ha. unfold __exit__, bind, logger_info, emit, mlflow_active_run_id,
    mlflow_end_run, ret, record. cbn. rewrite Ha. cbn.
  rewrite <- !app_assoc. reflexivity.
Qed.

(** [__exit__] has no [return]: whatever it is given, what it returns is
    not true. *)
Lemma exit_returns_None self exc w w' v :
  __exit__ self exc w = (w', Ok v) -> v = VNone.
Proof.
  unfold __exit__, bind, logger_info, emit, mlflow_active_run_id,
    mlflow_end_run, ret. cbn.
  destruct (active_run w); cbn; intros [= _ <-]; reflexivity.
Qed.

(** Had the block itself ended the run, [__exit__] would fail on
    [mlflow.active_run().info] before it reaches [end_run]. *)
Lemma exit_without_active_run self exc w :
  active_run w = None ->
  __exit__ self exc w =
    (record (Logged INFO "Result logged to MLflow." []) w,
     Raised (mkExn AttributeError "'NoneType' object has no attribute 'info'")).
Proof.
  intros Ha. unfold __exit__, bind, logger_info, emit, mlflow_active_run_id. cbn.
  rewrite Ha. reflexivity.
Qed.

(** C2, as amended: once [__enter__] has returned, however the block is
    left, normally or by an exception, and provided a run is still active
    when the block is left, [__exit__] runs and calls [mlflow.end_run]
    exactly once, after which no run is active; the outcome of the [with]
    statement is the outcome of the block, so an exception raised in the
    block is raised again after the run is closed.  [__exit__] never returns
    a true value, so it suppresses nothing. *)
Theorem C2_exit_always_ends_the_run self (body : MlflowLogger -> M unit)
    w w1 value w2 (outcome : Result unit) run_id :
  __enter__ env self w = (w1, Ok value) ->
  body value w1 = (w2, outcome) ->
  active_run w2 = Some run_id ->
  with_statement env self body w =
    (mkWorld (files w2) (tmp_seq w2) None (run_seq w2)
       (events w2 ++ [Logged INFO "Result logged to MLflow." [];
                      Logged INFO "MLflow run ID: %s" [run_id];
                      EndRun]),
     outcome)
  /\ (forall exc w' w'' v, __exit__ value exc w' = (w'', Ok v) -> truthy v = false).
Proof.
  intros Henter Hbody Ha. split.
  - unfold with_statement. erewrite bind_Ok by exact Henter. cbv beta.
    rewrite Hbody. destruct outcome as [[]|e].
    + erewrite bind_Ok by (apply exit_with_active_run; exact Ha). reflexivity.
    + erewrite bind_Ok by (apply exit_with_active_run; exact Ha). reflexivity.
  - intros exc w' w'' v H. apply exit_returns_None in H. now subst.
Qed.

(** [_setup] when the selected URL is present. *)
Lemma setup_with_uri self w uri :
  (if remote_flag (_config self) then remote_tracking_uri (_config self)
   else tracking_uri (_config self)) = Some uri ->
  _setup self w =
    (mkWorld (files w) (tmp_seq w) (active_run w) (run_seq w)
       (events w
        ++ [LoadDotenv true;
            Logged INFO (if remote_flag (_config self)
                         then "Using remote MLflow tracking URI: %s"
                         else "Using local MLflow tracking URI: %s") [uri];
            SetTrackingUri uri;
            EnableAsyncLogging true]
        ++ (if trace (_config self)
            then [OpenaiAutolog; Logged INFO "MLflow OpenAI autologging enabled." []]
            else [])
        ++ [Logged INFO "MLflow logging enabled with async mode on %s"
              [option_str (tracking_uri (_config self))]]),
     Ok tt).
Proof.
  intros Hsel. unfold _setup, bind, dotenv_load_dotenv, logger_info, emit,
    mlflow_set_tracking_uri, mlflow_enable_async_logging, mlflow_openai_autolog,
    unicode_string, ret, record.
  destruct (remote_flag (_config self)); rewrite Hsel; cbn;
    destruct (trace (_config self)); cbn; rewrite <- ?app_assoc; reflexivity.
Qed.

(** [_setup] when the selected URL is [None]. *)
Lemma setup_without_uri self w :
  (if remote_flag (_config self) then remote_tracking_uri (_config self)
   else tracking_uri (_config self)) = None ->
  _setup self w =
    (record (LoadDotenv true) w,
     Raised (mkExn AttributeError "'NoneType' object has no attribute 'unicode_string'")).
Proof.
  intros Hsel. unfold _setup, bind, dotenv_load_dotenv, emit, unicode_string, raise.
  destruct (remote_flag (_config self)); rewrite Hsel; reflexivity.
Qed.

(** C6, as amended: when [MlflowLogger] is constructed (the configuration
    carries an [experiment_name]), the tracking endpoint handed to
    [mlflow.set_tracking_uri] is [remote_tracking_uri] when [remote_flag] is
    true and [tracking_uri] otherwise; when the selected URL is [None]
    construction fails with an [AttributeError], raised by the call of
    [unicode_string] on [None], before any tracking endpoint is set. *)
Theorem C6_tracking_endpoint_at_construction config w experiment_name :
  model_extra config !! "experiment_name" = Some experiment_name ->
  match (if remote_flag config then remote_tracking_uri config
         else tracking_uri config) with
  | Some uri =>
      __init__ config w =
        (mkWorld (files w) (tmp_seq w) (active_run w) (run_seq w)
           (events w
            ++ [LoadDotenv true;
                Logged INFO (if remote_flag config
                             then "Using remote MLflow tracking URI: %s"
                             else "Using local MLflow tracking URI: %s") [uri];
                SetTrackingUri uri;
                EnableAsyncLogging true]
            ++ (if trace config
                then [OpenaiAutolog; Logged INFO "MLflow OpenAI autologging enabled." []]
                else [])
            ++ [Logged INFO "MLflow logging enabled with async mode on %s"
                  [option_str (tracking_uri config)]]),
         Ok (mkMlflowLogger config experiment_name (run_name config)
               (artifact_path config) (templates_path config)))
  | None =>
      __init__ config w =
        (record (LoadDotenv true) w,
         Raised (mkExn AttributeError
                   "'NoneType' object has no attribute 'unicode_string'"))
  end.
Proof.
  intros Hname. unfold __init__, getattr_extra. rewrite Hname.
  erewrite bind_Ok by reflexivity. cbv beta zeta.
  destruct (if remote_flag config then remote_tracking_uri config
            else tracking_uri config) as [uri|] eqn:Hsel.
  - erewrite bind_Ok by (apply setup_with_uri with (uri := uri); exact Hsel).
    reflexivity.
  - erewrite bind_Raised by (apply setup_without_uri; exact Hsel).
    reflexivity.
Qed.

End RunScope.

(** C2 on a block that raises: the run is closed, and the [ValueError] of the
    block leaves the [with] statement. *)
Lemma C2_exit_always_ends_the_run_witness :
  with_statement Sample.env Sample.self Sample.failing_body Sample.idle
  = (mkWorld Sample.fs 0 None 1
       [SetExperiment "exp";
        StartRun (Some "run_20240101_120000_abcdef") "run0";
        Logged INFO "Started MLflow run with name: %s" ["run_20240101_120000_abcdef"];
        Logged INFO "Active run ID: %s" ["run0"];
        SetTag "project_name" "proj";
        SetTag "run_host" "host";
        SetTag "run_datetime" "2024-01-01T12:00:00";
        LogMetric "ok" (VBool true);
        Logged INFO "Result logged to MLflow." [];
        Logged INFO "MLflow run ID: %s" ["run0"];
        EndRun],
     Raised (mkExn ValueError "boom")).
Proof.
  destruct (C2_exit_always_ends_the_run Sample.env Sample.self Sample.failing_body
              Sample.idle
              (__enter__ Sample.env Sample.self Sample.idle).1
              Sample.entered
              (Sample.failing_body Sample.entered
                 (__enter__ Sample.env Sample.self Sample.idle).1).1
              (Raised (mkExn ValueError "boom")) "run0") as [H _];
    [vm_compute; reflexivity ..|].
  rewrite H. vm_compute. reflexivity.
Defined.

(** C2 as stated fails: the block ends the run itself and then raises a
    [ValueError].  No run is active when [__exit__] is called, so it fails on
    [mlflow.active_run().info] before it reaches [mlflow.end_run]: the only
    [end_run] is the one of the block, and the [with] statement raises the
    [AttributeError] of [__exit__] in place of the [ValueError]. *)
Lemma C2_counterexample :
  Sample.ending_body Sample.entered (__enter__ Sample.env Sample.self Sample.idle).1
    = ((Sample.ending_body Sample.entered
          (__enter__ Sample.env Sample.self Sample.idle).1).1,
       Raised (mkExn ValueError "boom"))
  /\ __exit__ Sample.entered (Some (mkExn ValueError "boom"))
       (Sample.ending_body Sample.entered
          (__enter__ Sample.env Sample.self Sample.idle).1).1
     = (record (Logged INFO "Result logged to MLflow." [])
          (Sample.ending_body Sample.entered
             (__enter__ Sample.env Sample.self Sample.idle).1).1,
        Raised (mkExn AttributeError "'NoneType' object has no attribute 'info'"))
  /\ with_statement Sample.env Sample.self Sample.ending_body Sample.idle
     = (mkWorld Sample.fs 0 None 1
          [SetExperiment "exp";
           StartRun (Some "run_20240101_120000_abcdef") "run0";
           Logged INFO "Started MLflow run with name: %s" ["run_20240101_120000_abcdef"];
           Logged INFO "Active run ID: %s" ["run0"];
           SetTag "project_name" "proj";
           SetTag "run_host" "host";
           SetTag "run_datetime" "2024-01-01T12:00:00";
           EndRun;
           Logged INFO "Result logged to MLflow." []],
        Raised (mkExn AttributeError "'NoneType' object has no attribute 'info'")).
Proof.
  repeat split; vm_compute; reflexivity.
Qed.

(** C6 as stated fails: the remote endpoint is selected and is [None], and
    construction fails with an [AttributeError], not a
    [ConfigurationError]. *)
Lemma C6_counterexample :
  remote_flag Sample.config_remote_missing = true
  /\ remote_tracking_uri Sample.config_remote_missing = None
  /\ __init__ Sample.config_remote_missing Sample.idle
     = (record (LoadDotenv true) Sample.idle,
        Raised (mkExn AttributeError
                  "'NoneType' object has no attribute 'unicode_string'"))
  /\ ~ (exists w' msg,
          __init__ Sample.config_remote_missing Sample.idle
          = (w', Raised (mkExn ConfigurationError msg))).
Proof.
  split; [reflexivity|]. split; [reflexivity|]. split; [vm_compute; reflexivity|].
  intros (w' & msg & H). vm_compute in H. discriminate H.
Qed.

(** C6 on the sample configuration, whose [remote_flag] is false. *)
Lemma C6_tracking_endpoint_at_construction_witness :
  __init__ Sample.config Sample.idle
  = (mkWorld Sample.fs 0 None 0
       [LoadDotenv true;
        Logged INFO "Using local MLflow tracking URI: %s" ["http://localhost:5000/"];
        SetTrackingUri "http://localhost:5000/";
        EnableAsyncLogging true;
        Logged INFO "MLflow logging enabled with async mode on %s"
          ["http://localhost:5000/"]],
     Ok Sample.self).
Proof.
  apply (C6_tracking_endpoint_at_construction Sample.config Sample.idle "exp").
  vm_compute. reflexivity.
Defined.

(** ** Settings sources *)

Lemma build_values_from load_yaml (sources : list PydanticBaseSettingsSource)
    (state : gmap string Value) key :
  foldl (fun state source => state ∪ call_source load_yaml source) state sources !! key
  = match state !! key with
    | Some v => Some v
    | None => first_defined key (call_source load_yaml <$> sources)
    end.
Proof.
  revert state. induction sources as [|source sources IH]; intros state.
  - cbn. destruct (state !! key); reflexivity.
  - cbn [foldl fmap list_fmap first_defined foldr]. rewrite IH, lookup_union.
    destruct (state !! key) as [v|], (call_source load_yaml source !! key) as [v'|];
      reflexivity.
Qed.

Lemma build_values_lookup load_yaml sources key :
  build_values load_yaml sources !! key
  = first_defined key (call_source load_yaml <$> sources).
Proof.
  unfold build_values. rewrite build_values_from, lookup_empty. reflexivity.
Qed.

(** C3: [settings_customise_sources] returns the four sources it is given in
    the order init, environment, dotenv, file secrets, followed by one more
    source exactly when [model_config] declares a YAML path; that source is
    the YAML source for the declared path and comes last.  The value built
    for a key is therefore the value of the first source, in this order,
    that defines it. *)
Theorem C3_sources_order_and_precedence model_config settings_cls
    init_settings env_settings dotenv_settings file_secret_settings :
  ((exists p, yaml_file model_config = Some p /\ p <> "")
   <-> (exists yaml,
          settings_customise_sources model_config settings_cls
            init_settings env_settings dotenv_settings file_secret_settings
          = [init_settings; env_settings; dotenv_settings; file_secret_settings; yaml]))
  /\ (forall p, yaml_file model_config = Some p -> p <> "" ->
        settings_customise_sources model_config settings_cls
          init_settings env_settings dotenv_settings file_secret_settings
        = [init_settings; env_settings; dotenv_settings; file_secret_settings;
           YamlConfigSettingsSource settings_cls p
             (default "utf-8" (yaml_file_encoding model_config))])
  /\ ((yaml_file model_config = None \/ yaml_file model_config = Some "") ->
        settings_customise_sources model_config settings_cls
          init_settings env_settings dotenv_settings file_secret_settings
        = [init_settings; env_settings; dotenv_settings; file_secret_settings])
  /\ (forall load_yaml key,
        build_values load_yaml
          (settings_customise_sources model_config settings_cls
             init_settings env_settings dotenv_settings file_secret_settings) !! key
        = first_defined key
            (call_source load_yaml <$>
               settings_customise_sources model_config settings_cls
                 init_settings env_settings dotenv_settings file_secret_settings)).
Proof.
  split; [|split; [|split]]; [| | |intros; apply build_values_lookup];
    unfold settings_customise_sources, truthy_path;
    destruct (yaml_file model_config) as [p|] eqn:Hy;
    try destruct (String.eqb_spec p "") as [->|Hp]; cbn.
  - split; [intros (q & Hq & Hne); congruence | intros (yaml & H); discriminate H].
  - split; [intros _; eexists; reflexivity | intros _; exists p; auto].
  - split; [intros (q & H & _); discriminate H | intros (yaml & H); discriminate H].
  - intros q Hq Hne. congruence.
  - intros q Hq _. congruence.
  - intros q H. discriminate H.
  - reflexivity.
  - intros [H|H]; congruence.
  - reflexivity.
Qed.

(** On the two settings classes of the repository the YAML source is
    last. *)
Example GlobalConfig_sources i e d s :
  settings_customise_sources GlobalConfig_model_config "GlobalConfig" i e d s
  = [i; e; d; s; YamlConfigSettingsSource "GlobalConfig" "configs/global.yaml" "utf-8"].
Proof. reflexivity. Qed.

Example MlflowLoggerConfig_sources i e d s :
  settings_customise_sources MlflowLoggerConfig_model_config "MlflowLoggerConfig" i e d s
  = [i; e; d; s;
     YamlConfigSettingsSource "MlflowLoggerConfig" "configs/mlflow_logger.yaml" "utf-8"].
Proof. reflexivity. Qed.

(** An environment value overrides a YAML value, and an init value overrides
    both. *)
Example precedence_on_log_level :
  let yaml := fun _ _ : string => {[ "log_level" := VStr "DEBUG"; "other" := VInt 1 ]} in
  let sources init :=
    settings_customise_sources GlobalConfig_model_config "GlobalConfig"
      (GivenSource "init" init)
      (GivenSource "env" {[ "log_level" := VStr "INFO" ]})
      (GivenSource "dotenv" ∅) (GivenSource "secrets" ∅) in
  build_values yaml (sources ∅) !! "log_level" = Some (VStr "INFO")
  /\ build_values yaml (sources {[ "log_level" := VStr "ERROR" ]}) !! "log_level"
     = Some (VStr "ERROR")
  /\ build_values yaml (sources ∅) !! "other" = Some (VInt 1).
Proof.
  cbv zeta. rewrite !build_values_lookup. repeat split; vm_compute; reflexivity.
Qed.

(** C3 on [GlobalConfig]: the YAML source for [configs/global.yaml] is the
    fifth and last source. *)
Lemma C3_sources_order_and_precedence_witness :
  settings_customise_sources GlobalConfig_model_config "GlobalConfig"
    (GivenSource "init" ∅) (GivenSource "env" {[ "log_level" := VStr "INFO" ]})
    (GivenSource "dotenv" ∅) (GivenSource "secrets" ∅)
  = [GivenSource "init" ∅; GivenSource "env" {[ "log_level" := VStr "INFO" ]};
     GivenSource "dotenv" ∅; GivenSource "secrets" ∅;
     YamlConfigSettingsSource "GlobalConfig" "configs/global.yaml" "utf-8"].
Proof.
  destruct (C3_sources_order_and_precedence GlobalConfig_model_config "GlobalConfig"
              (GivenSource "init" ∅) (GivenSource "env" {[ "log_level" := VStr "INFO" ]})
              (GivenSource "dotenv" ∅) (GivenSource "secrets" ∅)) as (_ & H & _).
  apply (H "configs/global.yaml"); [reflexivity | discriminate].
Defined.

(** ** The configuration provider *)

Lemma SingletonMeta_call_cached cls construct p instance :
  _instances p !! cls = Some instance ->
  SingletonMeta_call cls construct p = (p, Ok instance).
Proof. intros H. unfold SingletonMeta_call. now rewrite H. Qed.

(** A successful call leaves its result cached under the class. *)
Lemma SingletonMeta_call_caches cls construct p p' instance :
  SingletonMeta_call cls construct p = (p', Ok instance) ->
  _instances p' !! cls = Some instance.
Proof.
  unfold SingletonMeta_call.
  destruct (_instances p !! cls) as [cached|] eqn:Hc.
  - intros [= <- <-]. exact Hc.
  - destruct (construct p) as [p1 [a|e]]; intros [= <- <-].
    cbn. apply lookup_insert_eq.
Qed.

Lemma BaseConfigProvider_new_instances loader p p' r :
  BaseConfigProvider_new loader p = (p', r) -> _instances p' = _instances p.
Proof.
  unfold BaseConfigProvider_new, allocate.
  destruct (load_GlobalConfig loader); [|intros [= <- _]; reflexivity].
  destruct (load_MlflowLoggerConfig loader); intros [= <- _]; reflexivity.
Qed.

(** A failed construction caches nothing: the next call constructs
    again. *)
Lemma BaseConfigProvider_failure loader p p' e :
  BaseConfigProvider loader p = (p', Raised e) ->
  _instances p' !! "BaseConfigProvider" = None.
Proof.
  unfold BaseConfigProvider, SingletonMeta_call.
  destruct (_instances p !! "BaseConfigProvider") as [cached|] eqn:Hc; [discriminate|].
  destruct (BaseConfigProvider_new loader p) as [p1 [a|e']] eqn:Hnew; [discriminate|].
  intros [= <- _]. apply BaseConfigProvider_new_instances in Hnew. congruence.
Qed.

(** What the first construction creates. *)
Lemma BaseConfigProvider_first loader p p' self :
  _instances p !! "BaseConfigProvider" = None ->
  BaseConfigProvider loader p = (p', Ok self) ->
  exists log_level config,
    load_GlobalConfig loader = Ok log_level
    /\ load_MlflowLoggerConfig loader = Ok config
    /\ global_config p' self = Some (next_address p)
    /\ mlflow_configs p' self = Some (S (next_address p))
    /\ heap p' !! next_address p = Some (GlobalConfigObject log_level)
    /\ heap p' !! S (next_address p) = Some (MlflowLoggerConfigObject config).
Proof.
  intros Hc. unfold BaseConfigProvider, SingletonMeta_call. rewrite Hc.
  unfold BaseConfigProvider_new, allocate, global_config, mlflow_configs.
  destruct (load_GlobalConfig loader) as [log_level|]; [|discriminate].
  destruct (load_MlflowLoggerConfig loader) as [config|]; [|discriminate].
  cbn. intros [= <- <-]. exists log_level, config. cbn.
  rewrite lookup_insert_eq.
  rewrite !(lookup_insert_ne _ (S (S (next_address p)))) by lia.
  rewrite lookup_insert_eq.
  rewrite (lookup_insert_ne _ (S (next_address p))) by lia.
  rewrite lookup_insert_eq. repeat split.
Qed.

(** C9: once a construction of the provider has succeeded, every later
    construction in the process returns the same object (the same address,
    not an equal copy) and leaves the process as it was: nothing is
    allocated, so the two settings objects the provider holds are the ones
    created by the first construction.  The first construction is the one
    that creates them. *)
Theorem C9_provider_is_a_singleton loader loader' p0 p1 self :
  BaseConfigProvider loader p0 = (p1, Ok self) ->
  BaseConfigProvider loader' p1 = (p1, Ok self)
  /\ (forall p2 other, BaseConfigProvider loader' p1 = (p2, Ok other) ->
        other = self
        /\ heap p2 = heap p1
        /\ global_config p2 other = global_config p1 self
        /\ mlflow_configs p2 other = mlflow_configs p1 self)
  /\ (_instances p0 !! "BaseConfigProvider" = None ->
        exists log_level config,
          load_GlobalConfig loader = Ok log_level
          /\ load_MlflowLoggerConfig loader = Ok config
          /\ global_config p1 self = Some (next_address p0)
          /\ mlflow_configs p1 self = Some (S (next_address p0))
          /\ heap p1 !! next_address p0 = Some (GlobalConfigObject log_level)
          /\ heap p1 !! S (next_address p0) = Some (MlflowLoggerConfigObject config)).
Proof.
  intros H1.
  assert (Hcached : BaseConfigProvider loader' p1 = (p1, Ok self)).
  { apply SingletonMeta_call_cached. eapply SingletonMeta_call_caches. exact H1. }
  split; [exact Hcached|]. split.
  - intros p2 other H2. rewrite Hcached in H2. injection H2 as <- <-. auto.
  - intros Hc. exact (BaseConfigProvider_first _ _ _ _ Hc H1).
Qed.

(** C9 from a fresh process: the second construction returns the provider
    of the first, at address 2, holding the settings objects at addresses 0
    and 1. *)
Lemma C9_provider_is_a_singleton_witness :
  let p1 := (BaseConfigProvider Sample.loader Sample.fresh).1 in
  BaseConfigProvider Sample.loader Sample.fresh = (p1, Ok 2%nat)
  /\ BaseConfigProvider Sample.loader p1 = (p1, Ok 2%nat)
  /\ global_config p1 2 = Some 0%nat
  /\ mlflow_configs p1 2 = Some 1%nat.
Proof.
  cbv zeta.
  assert (H1 : BaseConfigProvider Sample.loader Sample.fresh
               = ((BaseConfigProvider Sample.loader Sample.fresh).1, Ok 2%nat))
    by (vm_compute; reflexivity).
  destruct (C9_provider_is_a_singleton Sample.loader Sample.loader Sample.fresh
              _ 2%nat H1) as (H2 & _ & H3).
  destruct (H3 eq_refl) as (log_level & config & _ & _ & Hg & Hm & _).
  repeat split; assumption.
Defined.

(** * Further properties of the code *)

(** ** [log_dict] *)

Section LogDictMore.

Context (env : Env).

Lemma log_dict_item_event item ev w :
  entry_event env item = Some ev ->
  log_dict_item env item w = (record ev (started env w), Ok tt).
Proof.
  destruct item as [key value]. unfold entry_event, log_dict_item.
  destruct (isinstance value [c_int; c_float]).
  { intros [= <-]. apply log_metric_run. }
  destruct (isinstance value [c_str]).
  { intros [= <-]. apply log_param_run. }
  unfold json_dumps_call. destruct (json_dumps env value) as [s|]; [|discriminate].
  intros [= <-]. unfold bind, ret. apply log_param_run.
Qed.


Lemma record_active e w : active_run (record e w) = active_run w.
Proof. reflexivity. Qed.

Lemma record_all_active evs w : active_run (record_all evs w) = active_run w.
Proof.
  unfold record_all. revert w. induction evs as [|e evs IH]; intros w; [reflexivity|].
  cbn [foldl]. rewrite IH. reflexivity.
Qed.

Lemma record_all_events evs w : events (record_all evs w) = (events w ++ evs)%list.
Proof.
  unfold record_all. revert w. induction evs as [|e evs IH]; intros w.
  - cbn. rewrite app_nil_r. reflexivity.
  - cbn [foldl]. rewrite IH. cbn. rewrite <- app_assoc. reflexivity.
Qed.

Lemma log_dict_in_run self data evs w :
  is_Some (active_run w) ->
  Forall2 (fun item ev => entry_event env item = Some ev) data evs ->
  log_dict env self data w = (record_all evs w, Ok tt).
Proof.
  intros Ha H. revert w Ha. induction H as [|item ev data evs Hev _ IH]; intros w Ha.
  - reflexivity.
  - cbn [log_dict]. erewrite bind_Ok by (apply log_dict_item_event; exact Hev).
    rewrite (started_idem env w Ha). apply IH. exact Ha.
Qed.

Lemma log_dict_outside_run self data evs w :
  Forall2 (fun item ev => entry_event env item = Some ev) data evs ->
  data <> [] ->
  log_dict env self data w = (record_all evs (started env w), Ok tt).
Proof.
  intros H Hne. destruct H as [|item ev data evs Hev H]; [congruence|].
  cbn [log_dict]. erewrite bind_Ok by (apply log_dict_item_event; exact Hev).
  unfold record_all at 1. cbn [foldl]. apply log_dict_in_run; [|exact H].
  rewrite record_active. apply started_active.
Qed.

(** X1: [log_dict] makes one call to the tracking SDK per entry, in the
    order of the dictionary: [log_metric] for an [int], [float] or [bool]
    value, [log_param] with the value itself for a [str], [log_param] with
    the text of [json.dumps] for any other value.  Inside a run nothing else
    happens; outside a run the SDK starts one before the first call. *)
Theorem log_dict_records_each_entry self data evs w :
  Forall2 (fun item ev => entry_event env item = Some ev) data evs ->
  data <> [] ->
  log_dict env self data w = (record_all evs (started env w), Ok tt)
  /\ (is_Some (active_run w) ->
      events (log_dict env self data w).1 = (events w ++ evs)%list
      /\ active_run (log_dict env self data w).1 = active_run w).
Proof.
  intros H Hne.
  pose proof (log_dict_outside_run self data evs w H Hne) as Hrun.
  split; [exact Hrun|].
  intros Ha. rewrite Hrun, (started_idem env w Ha). cbn [fst].
  split; [apply record_all_events | apply record_all_active].
Qed.


End LogDictMore.

(** ** [log_experiment_data], the other branches *)

Section LogExperimentDataMore.

Context (env : Env).

(** [log_dict] touches neither the filesystem nor, inside a run, the run. *)
Lemma log_dict_files self data w w' r :
  log_dict env self data w = (w', r) -> files w' = files w.
Proof.
  revert w. induction data as [|item data IH]; intros w; cbn [log_dict].
  - intros [= <- _]. reflexivity.
  - destruct (log_dict_item_cases env item w) as [[_ [ev Hev]]|[_ Hn]].
    + erewrite bind_Ok by exact Hev. intros H. apply IH in H.
      rewrite H. cbn. apply started_files.
    + erewrite bind_Raised by exact Hn. intros [= <- _]. reflexivity.
Qed.

Lemma log_dict_rejected self data w :
  dict_loggable env data = false ->
  exists w', log_dict env self data w =
               (w', Raised (mkExn TypeError "Object is not JSON serializable"))
             /\ files w' = files w
             /\ (is_Some (active_run w) -> is_Some (active_run w')).
Proof.
  revert w. induction data as [|item data IH]; intros w Hd; [discriminate|].
  cbn [log_dict]. cbn in Hd.
  destruct (log_dict_item_cases env item w) as [[Hl [ev Hev]]|[_ Hn]].
  - rewrite Hl in Hd. cbn in Hd.
    destruct (IH (record ev (started env w)) Hd) as (w' & Hw' & Hf & Ha).
    exists w'. erewrite bind_Ok by exact Hev. split; [exact Hw'|]. split.
    + rewrite Hf. cbn. apply started_files.
    + intros _. apply Ha. rewrite record_active. apply started_active.
  - exists w. erewrite bind_Raised by exact Hn. auto.
Qed.

Lemma plain_artifact_tail self p w content :
  files w !! PathOps.to_str p = Some content ->
  (mlflow_log_artifact env (PathOps.to_str p)
     (os_path_join (_artifact_path self) (PathOps.name (PathOps.parent p)));;
   logger_info "Logged artifact: %s" [PathOps.to_str p];;
   ret Next) w
  = (record (Logged INFO "Logged artifact: %s" [PathOps.to_str p])
       (record (LogArtifact (basename (PathOps.to_str p)) content
                  (os_path_join (_artifact_path self) (PathOps.name (PathOps.parent p))))
          (started env w)),
     Ok Next).
Proof.
  intros Hf. erewrite bind_Ok by (apply log_artifact_run; exact Hf). reflexivity.
Qed.

(** The body of the loop on an existing path, from what the [if]/[elif]
    gives. *)
Lemma existing_path_step self p w content :
  files w !! PathOps.to_str p = Some content ->
  log_experiment_data_path env self p w =
    match log_by_suffix env self p w with
    | (w', Ok Return) => (w', Ok Return)
    | (w', Ok Next) =>
        (mlflow_log_artifact env (PathOps.to_str p)
           (os_path_join (_artifact_path self) (PathOps.name (PathOps.parent p)));;
         logger_info "Logged artifact: %s" [PathOps.to_str p];;
         ret Next) w'
    | (w', Raised e) => (w', Raised e)
    end.
Proof.
  intros Hf. unfold log_experiment_data_path.
  erewrite bind_Ok by (eapply path_exists_Some; exact Hf). cbv beta. cbn [negb].
  unfold bind at 1. destruct (log_by_suffix env self p w) as [w' [[|]|e]]; reflexivity.
Qed.

Lemma plain_file_step self p w content :
  files w !! PathOps.to_str p = Some content ->
  Str.lower (PathOps.suffix p) <> ".json" ->
  Str.lower (PathOps.suffix p) <> ".jinja2" ->
  log_experiment_data_path env self p w =
    (record (Logged INFO "Logged artifact: %s" [PathOps.to_str p])
       (record (LogArtifact (basename (PathOps.to_str p)) content
                  (os_path_join (_artifact_path self) (PathOps.name (PathOps.parent p))))
          (started env w)),
     Ok Next).
Proof.
  intros Hf Hj Ht. rewrite (existing_path_step self p w content Hf).
  unfold log_by_suffix. apply String.eqb_neq in Hj, Ht. rewrite Hj, Ht.
  cbn [ret]. unfold ret at 1. apply plain_artifact_tail. exact Hf.
Qed.

Lemma unparsable_json_step self p w content :
  files w !! PathOps.to_str p = Some content ->
  Str.lower (PathOps.suffix p) = ".json" ->
  parse_json env content = None ->
  log_experiment_data_path env self p w =
    (record (Logged INFO "Logged artifact: %s" [PathOps.to_str p])
       (record (LogArtifact (basename (PathOps.to_str p)) content
                  (os_path_join (_artifact_path self) (PathOps.name (PathOps.parent p))))
          (started env
             (record (Logged ERROR "Error reading JSON file %s: %s"
                        [PathOps.to_str p; "could not parse the file"]) w))),
     Ok Next).
Proof.
  intros Hf Hs Hp. rewrite (existing_path_step self p w content Hf).
  unfold log_by_suffix. rewrite Hs. cbn [String.eqb]. rewrite !Ascii.eqb_refl.
  unfold try_except.
  erewrite bind_Raised
    by (unfold pd_read_json, pd_read, bind, read_text; rewrite Hf, Hp; reflexivity).
  erewrite bind_Ok by apply emit_run. cbv beta. unfold ret at 1.
  apply plain_artifact_tail. exact Hf.
Qed.

Lemma many_rows_json_step self p w content df :
  files w !! PathOps.to_str p = Some content ->
  Str.lower (PathOps.suffix p) = ".json" ->
  parse_json env content = Some df ->
  length df <> 1%nat ->
  log_experiment_data_path env self p w =
    (record (Logged INFO "Logged artifact: %s" [PathOps.to_str p])
       (record (LogArtifact (basename (PathOps.to_str p)) content
                  (os_path_join (_artifact_path self) (PathOps.name (PathOps.parent p))))
          (record (LogTable df (PathOps.name p)) (started env w))),
     Ok Next).
Proof.
  intros Hf Hs Hp Hn. rewrite (existing_path_step self p w content Hf).
  unfold log_by_suffix. rewrite Hs. cbn [String.eqb]. rewrite !Ascii.eqb_refl.
  unfold try_except.
  erewrite bind_Ok by (eapply pd_read_json_run; eassumption). cbv beta.
  erewrite bind_Ok by apply log_table_run. cbv beta.
  assert (Hz : (shape0 df =? 1) = false).
  { apply Z.eqb_neq. unfold shape0. lia. }
  rewrite Hz. unfold ret at 1.
  rewrite (plain_artifact_tail self p _ content)
    by (cbn; rewrite started_files; exact Hf).
  rewrite (started_idem env (record _ (started env w)))
    by (rewrite record_active; apply started_active).
  reflexivity.
Qed.

Lemma rejected_row_json_step self p w content row :
  files w !! PathOps.to_str p = Some content ->
  Str.lower (PathOps.suffix p) = ".json" ->
  parse_json env content = Some [row] ->
  dict_loggable env row = false ->
  exists w2,
    log_dict env self row (record (LogTable [row] (PathOps.name p)) (started env w))
    = (w2, Raised (mkExn TypeError "Object is not JSON serializable"))
    /\ log_experiment_data_path env self p w =
       (record (Logged INFO "Logged artifact: %s" [PathOps.to_str p])
          (record (LogArtifact (basename (PathOps.to_str p)) content
                     (os_path_join (_artifact_path self) (PathOps.name (PathOps.parent p))))
             (record (Logged ERROR "Error reading JSON file %s: %s"
                        [PathOps.to_str p; "Object is not JSON serializable"]) w2)),
        Ok Next).
Proof.
  intros Hf Hs Hp Hd.
  destruct (log_dict_rejected self row
              (record (LogTable [row] (PathOps.name p)) (started env w)) Hd)
    as (w2 & Hw2 & Hfiles & Hact).
  exists w2. split; [exact Hw2|].
  rewrite (existing_path_step self p w content Hf).
  unfold log_by_suffix. rewrite Hs. cbn [String.eqb]. rewrite !Ascii.eqb_refl.
  unfold try_except.
  erewrite bind_Ok by (eapply pd_read_json_run; eassumption). cbv beta.
  erewrite bind_Ok by apply log_table_run. cbv beta.
  change (shape0 [row] =? 1) with true. cbv iota. cbn [hd].
  erewrite bind_Raised by exact Hw2.
  erewrite bind_Ok by apply emit_run. cbv beta. unfold ret at 1.
  rewrite (plain_artifact_tail self p _ content)
    by (cbn; rewrite Hfiles; cbn; rewrite started_files; exact Hf).
  rewrite (started_idem env (record _ w2)).
  - reflexivity.
  - rewrite record_active. apply Hact. rewrite record_active. apply started_active.
Qed.

Lemma loop_continues self (pre rest : list Path) p w w1 w2 :
  log_experiment_data_loop env self pre w = (w1, Ok Next) ->
  log_experiment_data_path env self p w1 = (w2, Ok Next) ->
  log_experiment_data env self (pre ++ p :: rest)%list w =
    log_experiment_data env self rest w2.
Proof.
  intros Hpre Hstep. rewrite log_experiment_data_app, Hpre.
  cbn [log_experiment_data]. erewrite bind_Ok by exact Hstep. reflexivity.
Qed.

(** X3: when the loop of [log_experiment_data] comes to an existing file
    whose extension is neither [.json] nor [.jinja2] (a [.csv] file, say),
    the file is logged once as an artifact, under its own name and content,
    in the directory [os.path.join(artifact_path, parent.name)]; no table is
    parsed or logged, an information record names the path, and the call
    goes on with the paths after it. *)
Theorem plain_file_is_logged_as_artifact self (pre rest : list Path) p w w1 content :
  log_experiment_data_loop env self pre w = (w1, Ok Next) ->
  files w1 !! PathOps.to_str p = Some content ->
  Str.lower (PathOps.suffix p) <> ".json" ->
  Str.lower (PathOps.suffix p) <> ".jinja2" ->
  log_experiment_data env self (pre ++ p :: rest)%list w =
    log_experiment_data env self rest
      (record (Logged INFO "Logged artifact: %s" [PathOps.to_str p])
         (record (LogArtifact (basename (PathOps.to_str p)) content
                    (os_path_join (_artifact_path self)
                       (PathOps.name (PathOps.parent p))))
            (started env w1))).
Proof.
  intros Hpre Hf Hj Ht. eapply loop_continues; [exact Hpre|].
  apply plain_file_step; assumption.
Qed.

(** X4: a [.json] file that [pandas] cannot parse does not stop the call:
    an error record names the path and the exception, no table is logged,
    the file is logged as a plain artifact like any other file, and the call
    goes on with the paths after it. *)
Theorem unparsable_json_is_logged_as_artifact self (pre rest : list Path) p w w1 content :
  log_experiment_data_loop env self pre w = (w1, Ok Next) ->
  files w1 !! PathOps.to_str p = Some content ->
  Str.lower (PathOps.suffix p) = ".json" ->
  parse_json env content = None ->
  log_experiment_data env self (pre ++ p :: rest)%list w =
    log_experiment_data env self rest
      (record (Logged INFO "Logged artifact: %s" [PathOps.to_str p])
         (record (LogArtifact (basename (PathOps.to_str p)) content
                    (os_path_join (_artifact_path self)
                       (PathOps.name (PathOps.parent p))))
            (started env
               (record (Logged ERROR "Error reading JSON file %s: %s"
                          [PathOps.to_str p; "could not parse the file"]) w1)))).
Proof.
  intros Hpre Hf Hs Hp. eapply loop_continues; [exact Hpre|].
  apply unparsable_json_step; assumption.
Qed.

(** X5: a [.json] file that parses into a table with no row or with several
    rows is logged twice, first as a table under the name of the file, then
    as a plain artifact; [log_dict] is not called, and the call goes on with
    the paths after it. *)
Theorem many_rows_json_is_logged_as_table_and_artifact
    self (pre rest : list Path) p w w1 content df :
  log_experiment_data_loop env self pre w = (w1, Ok Next) ->
  files w1 !! PathOps.to_str p = Some content ->
  Str.lower (PathOps.suffix p) = ".json" ->
  parse_json env content = Some df ->
  length df <> 1%nat ->
  log_experiment_data env self (pre ++ p :: rest)%list w =
    log_experiment_data env self rest
      (record (Logged INFO "Logged artifact: %s" [PathOps.to_str p])
         (record (LogArtifact (basename (PathOps.to_str p)) content
                    (os_path_join (_artifact_path self)
                       (PathOps.name (PathOps.parent p))))
            (record (LogTable df (PathOps.name p)) (started env w1)))).
Proof.
  intros Hpre Hf Hs Hp Hn. eapply loop_continues; [exact Hpre|].
  eapply many_rows_json_step; eassumption.
Qed.

(** X6: a [.json] file that parses into one row holding a value [log_dict]
    cannot record does not end the call: the table is logged, [log_dict]
    raises, the handler of the [try] logs the error, the file is logged as a
    plain artifact, and the call goes on with the paths after it. *)
Theorem rejected_row_json_does_not_end_the_call
    self (pre rest : list Path) p w w1 content row :
  log_experiment_data_loop env self pre w = (w1, Ok Next) ->
  files w1 !! PathOps.to_str p = Some content ->
  Str.lower (PathOps.suffix p) = ".json" ->
  parse_json env content = Some [row] ->
  dict_loggable env row = false ->
  exists w2,
    log_dict env self row (record (LogTable [row] (PathOps.name p)) (started env w1))
    = (w2, Raised (mkExn TypeError "Object is not JSON serializable"))
    /\ log_experiment_data env self (pre ++ p :: rest)%list w =
       log_experiment_data env self rest
         (record (Logged INFO "Logged artifact: %s" [PathOps.to_str p])
            (record (LogArtifact (basename (PathOps.to_str p)) content
                       (os_path_join (_artifact_path self)
                          (PathOps.name (PathOps.parent p))))
               (record (Logged ERROR "Error reading JSON file %s: %s"
                          [PathOps.to_str p; "Object is not JSON serializable"]) w2))).
Proof.
  intros Hpre Hf Hs Hp Hd.
  destruct (rejected_row_json_step self p w1 content row Hf Hs Hp Hd)
    as (w2 & Hw2 & Hstep).
  exists w2. split; [exact Hw2|].
  eapply loop_continues; eassumption.
Qed.


End LogExperimentDataMore.

(** ** [_log_jinja_templates] and what never leaves [log_experiment_data] *)

Section Templates.

Context (env : Env).




Lemma log_by_suffix_returns self p w content :
  files w !! PathOps.to_str p = Some content ->
  exists w' flow, log_by_suffix env self p w = (w', Ok flow)
                  /\ (flow = Next -> files w' = files w).
Proof.
  intros Hf. unfold log_by_suffix.
  destruct (String.eqb (Str.lower (PathOps.suffix p)) ".json").
  - unfold try_except, bind at 1.
    rewrite (path_exists_run p w) || idtac.
    unfold pd_read_json, pd_read, bind at 1, read_text. rewrite Hf.
    destruct (parse_json env content) as [df|].
    + cbn [ret]. unfold ret at 1. cbv beta iota.
      erewrite bind_Ok by apply log_table_run. cbv beta.
      destruct (shape0 df =? 1).
      * unfold bind.
        destruct (log_dict env self (hd [] df)
                    (record (LogTable df (PathOps.name p)) (started env w)))
          as [w2 [[]|e]] eqn:Hd; apply log_dict_files in Hd.
        -- eexists _, Return. split; [reflexivity | discriminate].
        -- eexists _, Next. split; [reflexivity|]. intros _. cbn.
           rewrite Hd. cbn. apply started_files.
      * eexists _, Next. split; [reflexivity|]. intros _. cbn. apply started_files.
    + cbn. eexists _, Next. split; [reflexivity|]. reflexivity.
  - destruct (String.eqb (Str.lower (PathOps.suffix p)) ".jinja2").
    + destruct (log_jinja_templates_copies env self p w content Hf) as (w' & Hw' & _).
      erewrite bind_Ok by exact Hw'. eexists _, Return.
      split; [reflexivity | discriminate].
    + eexists _, Next. split; reflexivity.
Qed.

Lemma log_experiment_data_path_returns self p w :
  exists w' flow, log_experiment_data_path env self p w = (w', Ok flow).
Proof.
  destruct (files w !! PathOps.to_str p) as [content|] eqn:Hf.
  - rewrite (existing_path_step env self p w content Hf).
    destruct (log_by_suffix_returns self p w content Hf) as (w1 & flow & Hs & Hfiles).
    rewrite Hs. destruct flow.
    + rewrite (plain_artifact_tail env self p w1 content)
        by (rewrite Hfiles by reflexivity; exact Hf).
      eauto.
    + eauto.
  - rewrite (missing_path_step env self p w Hf). eauto.
Qed.

(** In this model, where every path that exists is a regular file that can
    be read and the tracking SDK accepts every call, [log_experiment_data]
    returns normally: a missing path is skipped, and an error raised while
    a [.json] file is parsed or recorded is caught inside the loop.  (A
    directory or an unreadable template, which the model does not have,
    would make [open] raise in [_log_jinja_templates].) *)
Lemma log_experiment_data_returns self (data_paths : list Path) w :
  exists w', log_experiment_data env self data_paths w = (w', Ok tt).
Proof.
  revert w. induction data_paths as [|p rest IH]; intros w.
  - exists w. reflexivity.
  - cbn [log_experiment_data].
    destruct (log_experiment_data_path_returns self p w) as (w1 & flow & Hstep).
    erewrite bind_Ok by exact Hstep. destruct flow; [apply IH | eauto].
Qed.

End Templates.

(** ** [log_input], when it fails *)

Section LogInputMore.

Context (env : Env).

(** X10: a call of [log_input] that raises has reached neither the tracking
    SDK nor the filesystem: no dataset is recorded, no run is started, and
    at most the record announcing the load has been emitted. *)
Theorem log_input_failure_records_nothing self input_path w w' e :
  log_input env self input_path w = (w', Raised e) ->
  w' = w
  \/ w' = record (Logged INFO "Loading input data from %s"
                    [PathOps.to_str input_path]) w.
Proof.
  unfold log_input. unfold bind at 1. rewrite path_exists_run.
  destruct (bool_decide (is_Some (files w !! PathOps.to_str input_path))); cbn [negb].
  - unfold logger_info, bind at 1. rewrite emit_run. unfold bind at 1.
    set (w1 := record _ w).
    destruct (String.eqb (Str.lower (PathOps.suffix input_path)) ".json");
      [|destruct (String.eqb (Str.lower (PathOps.suffix input_path)) ".csv");
        [|destruct (String.eqb (Str.lower (PathOps.suffix input_path)) ".parquet")]].
    4: { intros [= <- _]. right. reflexivity. }
    all: unfold pd_read_json, pd_read_csv, pd_read_parquet, pd_read, bind at 1, read_text;
      destruct (files w1 !! PathOps.to_str input_path) as [content|];
      [|intros [= <- _]; right; reflexivity];
      match goal with
      | |- context [match ?parse content with _ => _ end] =>
          destruct (parse content) as [df|]
      end;
      unfold ret, raise; cbv beta iota;
      [rewrite log_input_run; discriminate | intros [= <- _]; right; reflexivity].
  - intros [= <- _]. left. reflexivity.
Qed.

(** X11: an existing file with a supported extension that the reader
    cannot parse makes [log_input] raise the error of the reader: unlike in
    [log_experiment_data], nothing catches it, and no dataset is
    recorded. *)
Theorem log_input_unparsable_file_raises self input_path w content :
  files w !! PathOps.to_str input_path = Some content ->
  (Str.lower (PathOps.suffix input_path) = ".json" /\ parse_json env content = None)
  \/ (Str.lower (PathOps.suffix input_path) = ".csv" /\ parse_csv env content = None)
  \/ (Str.lower (PathOps.suffix input_path) = ".parquet"
      /\ parse_parquet env content = None) ->
  log_input env self input_path w =
    (record (Logged INFO "Loading input data from %s" [PathOps.to_str input_path]) w,
     Raised (mkExn ParserError "could not parse the file")).
Proof.
  intros Hf Hfmt. unfold log_input.
  erewrite bind_Ok by (eapply path_exists_Some; exact Hf). cbn [negb].
  erewrite bind_Ok by apply emit_run. cbv beta.
  assert (Hread : forall parse, parse content = None ->
            pd_read parse input_path
              (record (Logged INFO "Loading input data from %s"
                         [PathOps.to_str input_path]) w)
            = (record (Logged INFO "Loading input data from %s"
                         [PathOps.to_str input_path]) w,
               Raised (mkExn ParserError "could not parse the file"))).
  { intros parse Hp. unfold pd_read, bind, read_text. cbn [files record].
    rewrite Hf, Hp. reflexivity. }
  destruct Hfmt as [[Hs Hp]|[[Hs Hp]|[Hs Hp]]]; rewrite Hs; cbn;
    (erewrite bind_Raised by (apply Hread; exact Hp)); reflexivity.
Qed.

End LogInputMore.

(** ** The run scope, further *)

Section RunScopeMore.

Context (env : Env).

Lemma set_tag_in_run key value w :
  is_Some (active_run w) ->
  mlflow_set_tag env key value w = (record (SetTag key value) w, Ok tt).
Proof.
  intros Ha. unfold mlflow_set_tag, bind. rewrite get_or_start_run_run.
  rewrite (started_idem env w Ha). reflexivity.
Qed.

Ltac in_run := rewrite ?record_active; assumption.

Lemma log_metadata_in_run self w project_name :
  is_Some (active_run w) ->
  model_extra (_config self) !! "project_name" = Some project_name ->
  _log_metadata env self w = (record_all (metadata_tags env project_name) w, Ok tt).
Proof.
  intros Ha Hpn. unfold _log_metadata, getattr_extra. rewrite Hpn.
  erewrite bind_Ok by reflexivity. cbv beta.
  erewrite bind_Ok by (apply set_tag_in_run; in_run). cbv beta.
  unfold metadata_tags, importlib_metadata_version, git_repo_head, record_all.
  set (w1 := record (SetTag "project_name" project_name) w).
  assert (Ha1 : is_Some (active_run w1)) by (subst w1; in_run).
  unfold bind at 1, try_except at 1.
  erewrite bind_Ok by reflexivity. cbv beta.
  destruct (metadata_version env project_name) as [version|].
  - erewrite bind_Ok by reflexivity. cbv beta.
    rewrite (set_tag_in_run _ _ w1 Ha1).
    set (w2 := record (SetTag "project_version" version) w1).
    assert (Ha2 : is_Some (active_run w2)) by (subst w2; in_run).
    unfold bind at 1, try_except at 1.
    destruct (git_head env) as [head|].
    + erewrite bind_Ok by reflexivity. cbv beta.
      erewrite bind_Ok by (apply set_tag_in_run; in_run). cbv beta.
      rewrite set_tag_in_run by in_run.
      erewrite bind_Ok by (apply set_tag_in_run; in_run). cbv beta.
      rewrite set_tag_in_run by in_run. reflexivity.
    + erewrite bind_Raised by reflexivity. unfold ret at 1.
      erewrite bind_Ok by (apply set_tag_in_run; in_run). cbv beta.
      rewrite set_tag_in_run by in_run. reflexivity.
  - erewrite bind_Raised by reflexivity. unfold ret at 1.
    unfold bind at 1, try_except at 1.
    destruct (git_head env) as [head|].
    + erewrite bind_Ok by reflexivity. cbv beta.
      erewrite bind_Ok by (apply set_tag_in_run; in_run). cbv beta.
      rewrite set_tag_in_run by in_run.
      erewrite bind_Ok by (apply set_tag_in_run; in_run). cbv beta.
      rewrite set_tag_in_run by in_run. reflexivity.
    + erewrite bind_Raised by reflexivity. unfold ret at 1.
      erewrite bind_Ok by (apply set_tag_in_run; in_run). cbv beta.
      rewrite set_tag_in_run by in_run. reflexivity.
Qed.

(** [__enter__] up to the call of [_log_metadata]: outside a run, the
    experiment is selected, the run is started under the resolved name, and
    two records are emitted. *)
Lemma enter_until_metadata self w :
  active_run w = None ->
  __enter__ env self w =
    (_log_metadata env (set_run_name self (resolved_run_name env self));;
     ret (set_run_name self (resolved_run_name env self)))
      (record_all
         [Logged INFO "Started MLflow run with name: %s" [resolved_run_name env self];
          Logged INFO "Active run ID: %s" [new_run_id env (run_seq w)]]
         (mkWorld (files w) (tmp_seq w) (Some (new_run_id env (run_seq w)))
            (S (run_seq w))
            (events w
             ++ [SetExperiment (_experiment_name self);
                 StartRun (Some (resolved_run_name env self))
                   (new_run_id env (run_seq w))]))).
Proof.
  intros Ha. unfold __enter__.
  set (self' := match _run_name self with
                | Some _ => self
                | None => _
                end).
  assert (Hself' : self' = set_run_name self (resolved_run_name env self)).
  { subst self'. unfold resolved_run_name, set_run_name.
    destruct self as [? ? [?|] ? ?]; reflexivity. }
  clearbody self'. subst self'.
  cbn [set_run_name _experiment_name _run_name].
  erewrite bind_Ok by apply emit_run. cbv beta.
  erewrite bind_Ok
    by (unfold mlflow_start_run; cbn [active_run record]; rewrite Ha; reflexivity).
  cbv beta.
  erewrite bind_Ok by apply emit_run. cbv beta.
  erewrite bind_Ok by reflexivity. cbv beta.
  erewrite bind_Ok by apply emit_run. cbv beta.
  unfold record_all, record. cbn. rewrite <- !app_assoc. reflexivity.
Qed.

Lemma enter_outside_run self w project_name :
  active_run w = None ->
  model_extra (_config self) !! "project_name" = Some project_name ->
  __enter__ env self w =
    (record_all
       ([Logged INFO "Started MLflow run with name: %s" [resolved_run_name env self];
         Logged INFO "Active run ID: %s" [new_run_id env (run_seq w)]]
        ++ metadata_tags env project_name)
       (mkWorld (files w) (tmp_seq w) (Some (new_run_id env (run_seq w)))
          (S (run_seq w))
          (events w
           ++ [SetExperiment (_experiment_name self);
               StartRun (Some (resolved_run_name env self))
                 (new_run_id env (run_seq w))])),
     Ok (set_run_name self (resolved_run_name env self))).
Proof.
  intros Ha Hpn. rewrite (enter_until_metadata self w Ha).
  erewrite bind_Ok
    by (apply log_metadata_in_run with (project_name := project_name);
        [rewrite record_all_active; cbn; eauto | exact Hpn]).
  unfold record_all. rewrite foldl_app. reflexivity.
Qed.

Lemma record_all_shape evs w :
  record_all evs w =
    mkWorld (files w) (tmp_seq w) (active_run w) (run_seq w) (events w ++ evs).
Proof.
  unfold record_all. revert w. induction evs as [|e evs IH]; intros w; cbn [foldl].
  - destruct w; cbn. rewrite app_nil_r. reflexivity.
  - rewrite IH. cbn. rewrite <- app_assoc. reflexivity.
Qed.

(** X12: [_log_metadata], called inside a run, is best effort: when the
    configuration carries a [project_name] it returns normally whatever the
    version lookup and the repository give, setting [project_name], then
    [project_version] if the version is found, then [git_commit] and
    [git_branch] together if a repository is found, then [run_host] and
    [run_datetime]; when the configuration has no [project_name] it raises
    an [AttributeError] and sets no tag. *)
Theorem log_metadata_is_best_effort self w :
  is_Some (active_run w) ->
  match model_extra (_config self) !! "project_name" with
  | Some project_name =>
      _log_metadata env self w = (record_all (metadata_tags env project_name) w, Ok tt)
  | None =>
      _log_metadata env self w =
        (w, Raised (mkExn AttributeError
                      "'MlflowLoggerConfig' object has no attribute 'project_name'"))
  end.
Proof.
  intros Ha. destruct (model_extra (_config self) !! "project_name") as [pn|] eqn:Hpn.
  - apply log_metadata_in_run; assumption.
  - unfold _log_metadata, getattr_extra. rewrite Hpn. reflexivity.
Qed.

(** X13: [__enter__], outside a run and with a [project_name], selects the
    experiment, starts one run named by the configured run name or, when
    there is none, by [run_<timestamp>_<first six hex digits>], emits two
    records, sets the metadata tags, and returns the logger carrying that
    name; the run is then active. *)
Theorem enter_starts_a_named_run self w project_name :
  active_run w = None ->
  model_extra (_config self) !! "project_name" = Some project_name ->
  __enter__ env self w =
    (record_all
       ([Logged INFO "Started MLflow run with name: %s" [resolved_run_name env self];
         Logged INFO "Active run ID: %s" [new_run_id env (run_seq w)]]
        ++ metadata_tags env project_name)
       (mkWorld (files w) (tmp_seq w) (Some (new_run_id env (run_seq w)))
          (S (run_seq w))
          (events w
           ++ [SetExperiment (_experiment_name self);
               StartRun (Some (resolved_run_name env self))
                 (new_run_id env (run_seq w))])),
     Ok (set_run_name self (resolved_run_name env self)))
  /\ active_run (__enter__ env self w).1 = Some (new_run_id env (run_seq w))
  /\ (forall run_name, _run_name self = Some run_name ->
        resolved_run_name env self = run_name)
  /\ (_run_name self = None ->
        resolved_run_name env self
        = "run_" ++ now_strftime env ++ "_" ++ Str.take 6 (uuid4_hex env)).
Proof.
  intros Ha Hpn.
  pose proof (enter_outside_run self w project_name Ha Hpn) as Hrun.
  split; [exact Hrun|]. split.
  - rewrite Hrun. cbn [fst]. rewrite record_all_active. reflexivity.
  - unfold resolved_run_name. split.
    + intros run_name ->. reflexivity.
    + intros ->. reflexivity.
Qed.

(** X14: when the configuration has no [project_name], the [with] statement
    fails in [__enter__] with an [AttributeError] raised by [_log_metadata]
    after the run has been started: the block does not run, [__exit__] is
    not called, and the run is left active. *)
Theorem enter_without_project_name_leaves_the_run_open
    self (body : MlflowLogger -> M unit) w :
  active_run w = None ->
  model_extra (_config self) !! "project_name" = None ->
  with_statement env self body w =
    (record_all
       [Logged INFO "Started MLflow run with name: %s" [resolved_run_name env self];
        Logged INFO "Active run ID: %s" [new_run_id env (run_seq w)]]
       (mkWorld (files w) (tmp_seq w) (Some (new_run_id env (run_seq w)))
          (S (run_seq w))
          (events w
           ++ [SetExperiment (_experiment_name self);
               StartRun (Some (resolved_run_name env self))
                 (new_run_id env (run_seq w))])),
     Raised (mkExn AttributeError
               "'MlflowLoggerConfig' object has no attribute 'project_name'")).
Proof.
  intros Ha Hpn. unfold with_statement.
  erewrite bind_Raised; [reflexivity|].
  rewrite (enter_until_metadata self w Ha).
  erewrite bind_Raised; [reflexivity|].
  unfold _log_metadata, getattr_extra. cbn [set_run_name _config]. rewrite Hpn.
  reflexivity.
Qed.

(** X15: when the block leaves no run active (it ended the run itself),
    [__exit__] fails on [mlflow.active_run().info] with an [AttributeError]
    before it reaches [end_run]: the [with] statement raises that error,
    whatever the outcome of the block was, and [end_run] is not called. *)
Theorem exit_after_the_run_was_ended self (body : MlflowLogger -> M unit)
    w w1 value w2 (outcome : Result unit) :
  __enter__ env self w = (w1, Ok value) ->
  body value w1 = (w2, outcome) ->
  active_run w2 = None ->
  with_statement env self body w =
    (record (Logged INFO "Result logged to MLflow." []) w2,
     Raised (mkExn AttributeError "'NoneType' object has no attribute 'info'")).
Proof.
  intros Henter Hbody Ha. unfold with_statement.
  erewrite bind_Ok by exact Henter. cbv beta. rewrite Hbody.
  destruct outcome as [[]|e];
    (erewrite bind_Raised by (apply exit_without_active_run; exact Ha));
    reflexivity.
Qed.

(** X16: a [with] block that only calls [log_dict] on a dictionary whose
    values can all be recorded, entered outside a run: every entry is
    recorded in the run [__enter__] started (no other run is started), then
    [__exit__] closes that run, and the statement returns normally. *)
Theorem with_log_dict_records_in_the_entered_run self data evs w project_name :
  active_run w = None ->
  model_extra (_config self) !! "project_name" = Some project_name ->
  Forall2 (fun item ev => entry_event env item = Some ev) data evs ->
  with_statement env self (fun value => log_dict env value data) w =
    (mkWorld (files w) (tmp_seq w) None (S (run_seq w))
       (events w
        ++ [SetExperiment (_experiment_name self);
            StartRun (Some (resolved_run_name env self)) (new_run_id env (run_seq w));
            Logged INFO "Started MLflow run with name: %s" [resolved_run_name env self];
            Logged INFO "Active run ID: %s" [new_run_id env (run_seq w)]]
        ++ metadata_tags env project_name
        ++ evs
        ++ [Logged INFO "Result logged to MLflow." [];
            Logged INFO "MLflow run ID: %s" [new_run_id env (run_seq w)];
            EndRun]),
     Ok tt).
Proof.
  intros Ha Hpn Hevs. unfold with_statement.
  erewrite bind_Ok by (apply enter_outside_run; eassumption). cbv beta.
  set (w1 := record_all _ _).
  assert (Ha1 : active_run w1 = Some (new_run_id env (run_seq w)))
    by (subst w1; rewrite record_all_active; reflexivity).
  rewrite (log_dict_in_run env _ data evs w1) by (rewrite ?Ha1; eauto).
  erewrite bind_Ok
    by (apply exit_with_active_run; rewrite record_all_active; exact Ha1).
  unfold ret. f_equal. subst w1.
  generalize (metadata_tags env project_name) as tags. intros tags.
  rewrite !record_all_shape. cbn [files tmp_seq active_run run_seq events].
  rewrite <- !app_assoc. reflexivity.
Qed.

End RunScopeMore.

(** ** Construction *)

(** X17: constructing an [MlflowLogger] succeeds exactly when the
    configuration carries an [experiment_name] and the URL selected by
    [remote_flag] is present; whether it succeeds or fails, it starts no run
    and leaves the filesystem alone. *)
Theorem construction_succeeds_iff config w :
  ((exists w' self, __init__ config w = (w', Ok self))
   <-> (is_Some (model_extra config !! "experiment_name")
        /\ is_Some (if remote_flag config then remote_tracking_uri config
                    else tracking_uri config)))
  /\ (forall w' r, __init__ config w = (w', r) ->
        active_run w' = active_run w /\ files w' = files w).
Proof.
  unfold __init__, getattr_extra.
  destruct (model_extra config !! "experiment_name") as [name|].
  - erewrite bind_Ok by reflexivity. cbv beta zeta.
    set (self := mkMlflowLogger _ _ _ _ _).
    destruct (if remote_flag config then remote_tracking_uri config
              else tracking_uri config) as [uri|] eqn:Hsel.
    + erewrite bind_Ok by (apply setup_with_uri with (uri := uri); exact Hsel).
      split.
      * split; [intros _; split; eauto | intros _; eauto].
      * intros w' r [= <- _]. split; reflexivity.
    + erewrite bind_Raised by (apply setup_without_uri; exact Hsel).
      split.
      * split; [intros (w' & lg & H); discriminate H
               | intros [_ [? H]]; discriminate H].
      * intros w' r [= <- _]. split; reflexivity.
  - split.
    + split; [intros (w' & lg & H); discriminate H
             | intros [[? H] _]; discriminate H].
    + intros w' r [= <- _]. split; reflexivity.
Qed.

(** ** The further properties on the sample world *)

Lemma log_dict_records_each_entry_witness :
  log_dict Sample.env Sample.self
    [("acc", VFloat "0.9"); ("ok", VBool true); ("tag", VStr "x"); ("n", VNone)]
    Sample.idle
  = (record_all
       [LogMetric "acc" (VFloat "0.9"); LogMetric "ok" (VBool true);
        LogParam "tag" (VStr "x"); LogParam "n" (VStr "null")]
       (started Sample.env Sample.idle),
     Ok tt).
Proof.
  destruct (log_dict_records_each_entry Sample.env Sample.self
              [("acc", VFloat "0.9"); ("ok", VBool true); ("tag", VStr "x"); ("n", VNone)]
              [LogMetric "acc" (VFloat "0.9"); LogMetric "ok" (VBool true);
               LogParam "tag" (VStr "x"); LogParam "n" (VStr "null")]
              Sample.idle) as [H _].
  - repeat constructor.
  - discriminate.
  - exact H.
Defined.


Lemma plain_file_is_logged_as_artifact_witness :
  log_experiment_data Sample.env Sample.self [Sample.path "d" "b.txt"] Sample.running
  = (record (Logged INFO "Logged artifact: %s" ["d/b.txt"])
       (record (LogArtifact "b.txt" "hello" "artifacts/d") Sample.running),
     Ok tt).
Proof.
  apply (plain_file_is_logged_as_artifact Sample.env Sample.self [] []
           (Sample.path "d" "b.txt") Sample.running Sample.running "hello").
  - reflexivity.
  - vm_compute. reflexivity.
  - vm_compute. discriminate.
  - vm_compute. discriminate.
Defined.

Lemma unparsable_json_is_logged_as_artifact_witness :
  log_experiment_data Sample.env Sample.self [Sample.path "d" "e.json"] Sample.running
  = (record (Logged INFO "Logged artifact: %s" ["d/e.json"])
       (record (LogArtifact "e.json" "not json" "artifacts/d")
          (record (Logged ERROR "Error reading JSON file %s: %s"
                     ["d/e.json"; "could not parse the file"]) Sample.running)),
     Ok tt).
Proof.
  apply (unparsable_json_is_logged_as_artifact Sample.env Sample.self [] []
           (Sample.path "d" "e.json") Sample.running Sample.running "not json");
    vm_compute; reflexivity.
Defined.

Lemma many_rows_json_is_logged_as_table_and_artifact_witness :
  log_experiment_data Sample.env Sample.self [Sample.path "d" "m.json"] Sample.running
  = (record (Logged INFO "Logged artifact: %s" ["d/m.json"])
       (record (LogArtifact "m.json" "[{'a': 1}, {'a': 2}]" "artifacts/d")
          (record (LogTable [[("a", VInt 1)]; [("a", VInt 2)]] "m.json") Sample.running)),
     Ok tt).
Proof.
  apply (many_rows_json_is_logged_as_table_and_artifact Sample.env Sample.self [] []
           (Sample.path "d" "m.json") Sample.running Sample.running
           "[{'a': 1}, {'a': 2}]" [[("a", VInt 1)]; [("a", VInt 2)]]);
    try (vm_compute; reflexivity).
  cbn. lia.
Defined.

Lemma rejected_row_json_does_not_end_the_call_witness :
  exists w2,
    log_dict Sample.env Sample.self [("acc", VInt 1); ("date", VObject "Timestamp")]
      (record (LogTable [[("acc", VInt 1); ("date", VObject "Timestamp")]] "c.json")
         Sample.running)
    = (w2, Raised (mkExn TypeError "Object is not JSON serializable"))
    /\ log_experiment_data Sample.env Sample.self
         [Sample.path "d" "c.json"; Sample.path "d" "b.txt"] Sample.running
       = log_experiment_data Sample.env Sample.self [Sample.path "d" "b.txt"]
           (record (Logged INFO "Logged artifact: %s" ["d/c.json"])
              (record (LogArtifact "c.json" "[{'acc': 1, 'date': '2024-01-01'}]"
                         "artifacts/d")
                 (record (Logged ERROR "Error reading JSON file %s: %s"
                            ["d/c.json"; "Object is not JSON serializable"]) w2))).
Proof.
  apply (rejected_row_json_does_not_end_the_call Sample.env Sample.self []
           [Sample.path "d" "b.txt"] (Sample.path "d" "c.json")
           Sample.running Sample.running "[{'acc': 1, 'date': '2024-01-01'}]"
           [("acc", VInt 1); ("date", VObject "Timestamp")]);
    vm_compute; reflexivity.
Defined.



Lemma log_input_failure_records_nothing_witness :
  record (Logged INFO "Loading input data from %s" ["d/b.txt"]) Sample.running
    = Sample.running
  \/ record (Logged INFO "Loading input data from %s" ["d/b.txt"]) Sample.running
     = record (Logged INFO "Loading input data from %s" ["d/b.txt"]) Sample.running.
Proof.
  apply (log_input_failure_records_nothing Sample.env Sample.self
           (Sample.path "d" "b.txt") Sample.running _
           (mkExn ValueError
              "Unsupported file format: .txt. Only .json, .csv, and .parquet are supported.")).
  vm_compute. reflexivity.
Defined.

Lemma log_input_unparsable_file_raises_witness :
  log_input Sample.env Sample.self (Sample.path "d" "e.json") Sample.running
  = (record (Logged INFO "Loading input data from %s" ["d/e.json"]) Sample.running,
     Raised (mkExn ParserError "could not parse the file")).
Proof.
  apply (log_input_unparsable_file_raises Sample.env Sample.self
           (Sample.path "d" "e.json") Sample.running "not json").
  - vm_compute. reflexivity.
  - left. split; vm_compute; reflexivity.
Defined.

Lemma log_metadata_is_best_effort_witness :
  _log_metadata Sample.env Sample.self Sample.running
  = (record (SetTag "run_datetime" "2024-01-01T12:00:00")
       (record (SetTag "run_host" "host")
          (record (SetTag "project_name" "proj") Sample.running)),
     Ok tt).
Proof.
  assert (Ha : is_Some (active_run Sample.running)) by (eexists; reflexivity).
  exact (log_metadata_is_best_effort Sample.env Sample.self Sample.running Ha).
Defined.

Lemma enter_starts_a_named_run_witness :
  __enter__ Sample.env Sample.self Sample.idle
  = (mkWorld Sample.fs 0 (Some "run0") 1
       [SetExperiment "exp";
        StartRun (Some "run_20240101_120000_abcdef") "run0";
        Logged INFO "Started MLflow run with name: %s" ["run_20240101_120000_abcdef"];
        Logged INFO "Active run ID: %s" ["run0"];
        SetTag "project_name" "proj";
        SetTag "run_host" "host";
        SetTag "run_datetime" "2024-01-01T12:00:00"],
     Ok Sample.entered).
Proof.
  destruct (enter_starts_a_named_run Sample.env Sample.self Sample.idle "proj")
    as [H _]; [vm_compute; reflexivity ..|].
  rewrite H. vm_compute. reflexivity.
Defined.

Lemma enter_without_project_name_leaves_the_run_open_witness :
  with_statement Sample.env Sample.self_without_project Sample.failing_body Sample.idle
  = (mkWorld Sample.fs 0 (Some "run0") 1
       [SetExperiment "exp";
        StartRun (Some "run_20240101_120000_abcdef") "run0";
        Logged INFO "Started MLflow run with name: %s" ["run_20240101_120000_abcdef"];
        Logged INFO "Active run ID: %s" ["run0"]],
     Raised (mkExn AttributeError
               "'MlflowLoggerConfig' object has no attribute 'project_name'")).
Proof.
  apply (enter_without_project_name_leaves_the_run_open Sample.env
           Sample.self_without_project Sample.failing_body Sample.idle);
    vm_compute; reflexivity.
Defined.

Lemma exit_after_the_run_was_ended_witness :
  with_statement Sample.env Sample.self Sample.ending_body Sample.idle
  = (mkWorld Sample.fs 0 None 1
       [SetExperiment "exp";
        StartRun (Some "run_20240101_120000_abcdef") "run0";
        Logged INFO "Started MLflow run with name: %s" ["run_20240101_120000_abcdef"];
        Logged INFO "Active run ID: %s" ["run0"];
        SetTag "project_name" "proj";
        SetTag "run_host" "host";
        SetTag "run_datetime" "2024-01-01T12:00:00";
        EndRun;
        Logged INFO "Result logged to MLflow." []],
     Raised (mkExn AttributeError "'NoneType' object has no attribute 'info'")).
Proof.
  rewrite (exit_after_the_run_was_ended Sample.env Sample.self Sample.ending_body
             Sample.idle
             (__enter__ Sample.env Sample.self Sample.idle).1
             Sample.entered
             (Sample.ending_body Sample.entered
                (__enter__ Sample.env Sample.self Sample.idle).1).1
             (Raised (mkExn ValueError "boom")));
    vm_compute; reflexivity.
Defined.

Lemma with_log_dict_records_in_the_entered_run_witness :
  with_statement Sample.env Sample.self
    (fun value => log_dict Sample.env value [("ok", VBool true); ("tag", VStr "x")])
    Sample.idle
  = (mkWorld Sample.fs 0 None 1
       [SetExperiment "exp";
        StartRun (Some "run_20240101_120000_abcdef") "run0";
        Logged INFO "Started MLflow run with name: %s" ["run_20240101_120000_abcdef"];
        Logged INFO "Active run ID: %s" ["run0"];
        SetTag "project_name" "proj";
        SetTag "run_host" "host";
        SetTag "run_datetime" "2024-01-01T12:00:00";
        LogMetric "ok" (VBool true);
        LogParam "tag" (VStr "x");
        Logged INFO "Result logged to MLflow." [];
        Logged INFO "MLflow run ID: %s" ["run0"];
        EndRun],
     Ok tt).
Proof.
  apply (with_log_dict_records_in_the_entered_run Sample.env Sample.self
           [("ok", VBool true); ("tag", VStr "x")]
           [LogMetric "ok" (VBool true); LogParam "tag" (VStr "x")]
           Sample.idle "proj").
  - reflexivity.
  - vm_compute. reflexivity.
  - repeat constructor.
Defined.
